(** * Teleop command router

    A shallow embedding of the two teleop nodes of the repository:

    - [Bak]: [teleop_bak.py], the serial bridge that forwards the four
      discrete motion words to a microcontroller;
    - [Gzb]: [teleop_gzb.py], the joint jog accumulator that publishes a
      joint trajectory point per key press.

    Python strings are modelled by [string]; a character is a code point
    below 256.  Python floats are the kernel's binary64 floats.  Calls that
    leave the process (serial device, [glob], the ROS publisher) consult a
    host oracle indexed by the number of such calls made so far, and leave
    an event in a trace.  [json.loads] is a parameter of the handlers.
    [print] takes every line in [Bak], [Gzb] and [Robot]; [BakOut] and
    [GzbOut] give the handlers with a [print] that can raise. *)

From Stdlib Require Import ZArith List Ascii String Bool Lia.
From Stdlib Require Import Floats.PrimFloat.
From Stdlib Require Import Floats.FloatOps Floats.FloatAxioms Floats.SpecFloat.
From Stdlib Require Import Sorting.Sorted.
From Stdlib Require Import FunctionalExtensionality.
From stdpp Require Import base list.

Set Warnings "-register-all".
Local Open Scope string_scope.
Local Open Scope list_scope.

(** ** Python values and built-ins *)

Module Py.

(** The values [json.loads] can produce, which are also the values a
    PubSub message field can hold. *)
Inductive value : Type :=
| VNone
| VBool (b : bool)
| VInt (n : Z)
| VFloat (x : float)
| VStr (s : string)
| VList (xs : list value)
| VDict (items : list (string * value)).

(** The exceptions of the modelled code, all subclasses of [Exception]. *)
Inductive exn : Type :=
| JSONDecodeError
| TypeError
| AttributeError
| IndexError
| SerialException
| RCLError
| UnicodeEncodeError.

(** [bool(v)] *)
Definition truthy (v : value) : bool :=
  match v with
  | VNone => false
  | VBool b => b
  | VInt n => negb (n =? 0)%Z
  | VFloat x => negb (PrimFloat.eqb x 0)
  | VStr s => negb (String.eqb s EmptyString)
  | VList xs => match xs with [] => false | _ :: _ => true end
  | VDict items => match items with [] => false | _ :: _ => true end
  end.

(** [d.get(key)] on the items of a dict. *)
Fixpoint dict_get (items : list (string * value)) (key : string) : value :=
  match items with
  | [] => VNone
  | (k, v) :: rest => if String.eqb k key then v else dict_get rest key
  end.

(** [d[key] = v]: an existing key keeps its place. *)
Fixpoint dict_set (items : list (string * value)) (key : string) (v : value)
  : list (string * value) :=
  match items with
  | [] => [(key, v)]
  | (k, w) :: rest =>
      if String.eqb k key then (k, v) :: rest else (k, w) :: dict_set rest key v
  end.

(** [v == s] for a string literal [s]. *)
Definition eq_str (v : value) (s : string) : bool :=
  match v with
  | VStr t => String.eqb t s
  | _ => false
  end.

(** [v in (s1, s2, ...)] for a tuple of string literals. *)
Definition in_strs (v : value) (ss : list string) : bool :=
  existsb (eq_str v) ss.

(** [c.isspace()] *)
Definition isspace (c : ascii) : bool :=
  let n := nat_of_ascii c in
  (((9 <=? n) && (n <=? 13)) || ((28 <=? n) && (n <=? 32))
   || (n =? 133) || (n =? 160))%nat.

(** [c.lower()] for one character. *)
Definition lower_char (c : ascii) : ascii :=
  let n := nat_of_ascii c in
  if (((65 <=? n) && (n <=? 90)) || ((192 <=? n) && (n <=? 214))
      || ((216 <=? n) && (n <=? 222)))%nat
  then ascii_of_nat (n + 32) else c.

(** [s.lower()] *)
Fixpoint lower (s : string) : string :=
  match s with
  | EmptyString => EmptyString
  | String c r => String (lower_char c) (lower r)
  end.

(** [s.lstrip()] *)
Fixpoint lstrip (s : string) : string :=
  match s with
  | EmptyString => EmptyString
  | String c r => if isspace c then lstrip r else s
  end.

(** [s.rstrip()] *)
Fixpoint rstrip (s : string) : string :=
  match s with
  | EmptyString => EmptyString
  | String c r =>
      match rstrip r with
      | EmptyString => if isspace c then EmptyString else String c EmptyString
      | r' => String c r'
      end
  end.

(** [s.strip()] *)
Definition strip (s : string) : string := rstrip (lstrip s).

(** [float(n)] for an integer of small magnitude (exact below 2^53). *)
Fixpoint float_of_pos (p : positive) : float :=
  match p with
  | xH => 1
  | xO p' => 2 * float_of_pos p'
  | xI p' => 2 * float_of_pos p' + 1
  end%float.

Definition float_of_int (n : Z) : float :=
  match n with
  | Z0 => 0
  | Zpos p => float_of_pos p
  | Zneg p => - float_of_pos p
  end%float.

(** [math.pi] and [math.radians]: the library multiplies by [pi / 180]. *)
Definition pi : float := 0x1.921fb54442d18p+1%float.

Definition radians (x : float) : float := (x * (pi / 180))%float.

(** *** Statements that may raise, over a program state [S] *)

Inductive outcome (A : Type) : Type :=
| Ret (a : A)
| Raise (e : exn).
Arguments Ret {A} a.
Arguments Raise {A} e.

Definition M (S A : Type) : Type := S -> outcome A * S.

Definition ret {S A : Type} (a : A) : M S A := fun s => (Ret a, s).

Definition raise {S A : Type} (e : exn) : M S A := fun s => (Raise e, s).

Definition bind {S A B : Type} (m : M S A) (k : A -> M S B) : M S B :=
  fun s =>
    match m s with
    | (Ret a, s') => k a s'
    | (Raise e, s') => (Raise e, s')
    end.

(** [try: body except Exception as e: handler(e)] *)
Definition try_except {S A : Type} (body : M S A) (handler : exn -> M S A)
  : M S A :=
  fun s =>
    match body s with
    | (Ret a, s') => (Ret a, s')
    | (Raise e, s') => handler e s'
    end.

(** The state a statement leaves and the value or exception it ends with. *)
Definition final {S A : Type} (m : M S A) (s : S) : S := snd (m s).
Definition result {S A : Type} (m : M S A) (s : S) : outcome A := fst (m s).

End Py.

Import Py.

Declare Scope py_scope.
Delimit Scope py_scope with py.
Notation "'do' x <- m ; k" := (bind m (fun x => k))
  (at level 10, x name, m at level 100, k at level 200) : py_scope.
Notation "m >> k" := (bind m (fun _ => k))
  (at level 95, right associativity) : py_scope.
Local Open Scope py_scope.

(** ** The serial bridge: [teleop_bak.py] *)

Module Bak.

(** A PubSub message, delivered as a dict or as an object with attributes. *)
Inductive pubsub_message : Type :=
| AsDict (items : list (string * value))
| AsObject (attrs : list (string * value)).

(** An open [serial.Serial] handle. *)
Record Serial : Type := { port : string; baudrate : Z }.

(** What the node prints; the time stamp of a line is left out. *)
Inductive log_line : Type :=
| LogScanning (candidates : list string)
| LogProbing (p : string)
| LogLooksValid (p : string)
| LogProbeFailed (p : string) (e : exn)
| LogNoValidPort
| LogCouldNotFind
| LogConnecting (p : string) (baud : Z)
| LogConnected
| LogConnectFailed (p : string) (e : exn)
| LogNotConnected (cmd : string)
| LogSent (cmd : string)
| LogReply (resp : string)
| LogSendError (cmd : string) (e : exn)
| LogNoMessage (raw : pubsub_message)
| LogReceived (cmd ts sender : value)
| LogIgnoring (cmd data : value)
| LogHandlerError (e : exn) (raw : pubsub_message).

(** What the process does to the outside, in order. *)
Inductive event : Type :=
| EvGlob (pattern : string) (found : list string)
| EvOpen (p : string) (baud : Z) (ok : bool)
| EvSleep (ms : Z)
| EvWrite (p : string) (data : string) (ok : bool)
| EvRead (p : string) (size : Z) (ok : bool)
| EvInWaiting (p : string) (ok : bool)
| EvReadline (p : string) (ok : bool)
| EvClose (p : string) (ok : bool)
| EvPrint (l : log_line).

(** The host, asked at the [n]-th call that leaves the process. *)
Record host : Type := {
  glob : nat -> string -> list string;
  io_error : nat -> bool;
  in_waiting : nat -> Z;
  readline : nat -> string
}.

(** The module's global [arduino_ser], the calls made so far and the
    events so far. *)
Record state : Type := {
  arduino_ser : option Serial;
  tick : nat;
  trace : list event
}.

Definition emit (e : event) : M state unit :=
  fun s => (Ret tt, {| arduino_ser := arduino_ser s; tick := tick s;
                       trace := trace s ++ [e] |}).

Definition print (l : log_line) : M state unit := emit (EvPrint l).

Definition sleep (ms : Z) : M state unit := emit (EvSleep ms).

Definition get_arduino_ser : M state (option Serial) :=
  fun s => (Ret (arduino_ser s), s).

Definition set_arduino_ser (v : option Serial) : M state unit :=
  fun s => (Ret tt, {| arduino_ser := v; tick := tick s; trace := trace s |}).

Definition TELEOP_COMMANDS : list string :=
  ["forward"; "backward"; "left"; "right"].

Definition newline : string := String (ascii_of_nat 10) EmptyString.

Section WithHost.

Variable h : host.
Variable json_loads : string -> option value.

(** A call on the device: the host decides whether it raises. *)
Definition device_call (ev : bool -> event) : M state unit :=
  fun s =>
    let failed := io_error h (tick s) in
    let s' := {| arduino_ser := arduino_ser s; tick := S (tick s);
                 trace := trace s ++ [ev (negb failed)] |} in
    if failed then (Raise SerialException, s') else (Ret tt, s').

(** A call that reads a value [f] from the host when it does not raise. *)
Definition device_read {A : Type} (ev : bool -> event) (f : nat -> A)
  : M state A :=
  fun s =>
    match device_call ev s with
    | (Ret _, s') => (Ret (f (tick s)), s')
    | (Raise e, s') => (Raise e, s')
    end.

(** [glob.glob(pattern)] *)
Definition glob_glob (pattern : string) : M state (list string) :=
  fun s =>
    let found := glob h (tick s) pattern in
    (Ret found, {| arduino_ser := arduino_ser s; tick := S (tick s);
                   trace := trace s ++ [EvGlob pattern found] |}).

(** [serial.Serial(port, baud, timeout=0.05)] *)
Definition serial_Serial (p : string) (baud : Z) : M state Serial :=
  device_call (EvOpen p baud) >> ret {| port := p; baudrate := baud |}.

Definition serial_write (s : Serial) (data : string) : M state unit :=
  device_call (EvWrite (port s) data).

Definition serial_read (s : Serial) (size : Z) : M state unit :=
  device_call (EvRead (port s) size).

Definition serial_close (s : Serial) : M state unit :=
  device_call (EvClose (port s)).

Definition serial_in_waiting (s : Serial) : M state Z :=
  device_read (EvInWaiting (port s)) (in_waiting h).

(** [s.readline().decode(errors=ignore)] *)
Definition serial_readline (s : Serial) : M state string :=
  device_read (EvReadline (port s)) (readline h).

(** The body of the [for port in candidates] loop of [find_arduino_port]:
    [Some p] when the loop returns [p], [None] when it runs to its end. *)
Fixpoint probe_candidates (candidates : list string) : M state (option string) :=
  match candidates with
  | [] => ret None
  | p :: rest =>
      do found <-
        try_except
          (print (LogProbing p) >>
           do s <- serial_Serial p 115200;
           sleep 2000 >>
           serial_write s ("ping" ++ newline) >>
           sleep 100 >>
           serial_read s 10 >>
           serial_close s >>
           print (LogLooksValid p) >>
           ret true)
          (fun e => print (LogProbeFailed p e) >> ret false);
      if (found : bool) then ret (Some p) else probe_candidates rest
  end.

Definition find_arduino_port : M state (option string) :=
  do usb <- glob_glob "/dev/ttyUSB*";
  do acm <- glob_glob "/dev/ttyACM*";
  let candidates := usb ++ acm in
  print (LogScanning candidates) >>
  do r <- probe_candidates candidates;
  match r with
  | Some p => ret (Some p)
  | None => print LogNoValidPort >> ret None
  end.

Definition BAUD_RATE : Z := 115200.

Definition init_arduino : M state unit :=
  do found <- find_arduino_port;
  match found with
  | None => print LogCouldNotFind >> set_arduino_ser None
  | Some p =>
      try_except
        (print (LogConnecting p BAUD_RATE) >>
         do s <- serial_Serial p BAUD_RATE;
         set_arduino_ser (Some s) >>
         sleep 2000 >>
         print LogConnected)
        (fun e => print (LogConnectFailed p e) >> set_arduino_ser None)
  end.

Definition send_cmd_to_arduino (cmd : string) : M state unit :=
  do ser <- get_arduino_ser;
  match ser with
  | None => print (LogNotConnected cmd)
  | Some s =>
      try_except
        (serial_write s (cmd ++ newline) >>
         print (LogSent cmd) >>
         do waiting <- serial_in_waiting s;
         if negb (waiting =? 0)%Z then
           do line <- serial_readline s;
           let resp := strip line in
           if negb (String.eqb resp EmptyString)
           then print (LogReply resp) else ret tt
         else ret tt)
        (fun e => print (LogSendError cmd e))
  end.

(** [pubsub_message.get(name)] or [getattr(pubsub_message, name, None)] *)
Definition field (m : pubsub_message) (name : string) : value :=
  match m with
  | AsDict items => dict_get items name
  | AsObject attrs => dict_get attrs name
  end.

(** [json.loads(v)]: only a string is decoded. *)
Definition loads (v : value) : M state value :=
  match v with
  | VStr s =>
      match json_loads s with
      | Some data => ret data
      | None => raise JSONDecodeError
      end
  | _ => raise TypeError
  end.

(** [data.get(key)]: only a dict has the method. *)
Definition get (data : value) (key : string) : M state value :=
  match data with
  | VDict items => ret (dict_get items key)
  | _ => raise AttributeError
  end.

Definition handle_teleop_message (pubsub_message : pubsub_message)
  : M state unit :=
  try_except
    (let payload_str := field pubsub_message "message" in
     let sender := field pubsub_message "senderId" in
     if negb (truthy payload_str) then print (LogNoMessage pubsub_message)
     else
       do data <- loads payload_str;
       do cmd <- get data "cmd";
       do ts <- get data "ts";
       print (LogReceived cmd ts sender) >>
       if in_strs cmd TELEOP_COMMANDS then
         match cmd with
         | VStr c => send_cmd_to_arduino c
         | _ => raise TypeError
         end
       else print (LogIgnoring cmd data))
    (fun e => print (LogHandlerError e pubsub_message)).

End WithHost.

(** The module as loaded: [arduino_ser = None], nothing done yet. *)
Definition initial : state :=
  {| arduino_ser := None; tick := 0; trace := [] |}.

End Bak.

(** ** The joint jog node: [teleop_gzb.py] *)

Module Gzb.

Inductive pubsub_message : Type :=
| AsDict (items : list (string * value))
| AsObject (attrs : list (string * value)).

Definition JOINT_NAMES : list string :=
  ["joint1"; "joint2"; "joint3"; "joint4"; "joint5"; "joint6"; "joint7"].

(** 3 degrees per key press. *)
Definition STEP_RAD : float := radians 3.

(** [time_from_start], in seconds. *)
Definition TFS : float := 0x1.999999999999ap-2%float.

Definition KEYMAP : list (string * (nat * Z)) :=
  [("q", (0, 1%Z)); ("a", (0, (-1)%Z));
   ("w", (1, 1%Z)); ("s", (1, (-1)%Z));
   ("e", (2, 1%Z)); ("d", (2, (-1)%Z));
   ("r", (3, 1%Z)); ("f", (3, (-1)%Z));
   ("t", (4, 1%Z)); ("g", (4, (-1)%Z));
   ("y", (5, 1%Z)); ("h", (5, (-1)%Z));
   ("u", (6, 1%Z)); ("j", (6, (-1)%Z))].

Definition STOP_KEYS : list string := [" "; "x"].

(** [KEYMAP[k]], [None] when [k not in KEYMAP]. *)
Fixpoint keymap_get (table : list (string * (nat * Z))) (k : string)
  : option (nat * Z) :=
  match table with
  | [] => None
  | (k', e) :: rest => if String.eqb k' k then Some e else keymap_get rest k
  end.

(** [k in STOP_KEYS] *)
Definition in_set (k : string) (keys : list string) : bool :=
  existsb (String.eqb k) keys.

(** The message handed to the publisher: one point with all positions. *)
Record JointTrajectoryPoint : Type := {
  positions : list float;
  time_from_start : float
}.

Record JointTrajectory : Type := {
  joint_names : list string;
  points : list JointTrajectoryPoint
}.

Inductive log_line : Type :=
| LogStop (k : string)
| LogKey (k : string) (idx : nat) (target : float)
| LogNoMessage (raw : pubsub_message)
| LogReceived (key ts sender : value)
| LogNotReady (key : value)
| LogHandlerError (e : exn) (raw : pubsub_message).

Inductive event : Type :=
| EvPublish (msg : JointTrajectory) (ok : bool)
| EvPrint (l : log_line).

(** The host decides whether the [n]-th [publish] raises. *)
Record host : Type := { publish_error : nat -> bool }.

(** The node object: its joint targets [self.q]. *)
Record JointJogNode : Type := { q : list float }.

(** The module's global [ros_node], the calls made so far, the events. *)
Record state : Type := {
  ros_node : option JointJogNode;
  tick : nat;
  trace : list event
}.

Definition emit (e : event) : M state unit :=
  fun s => (Ret tt, {| ros_node := ros_node s; tick := tick s;
                       trace := trace s ++ [e] |}).

Definition print (l : log_line) : M state unit := emit (EvPrint l).

(** [self.q] of the node [ros_node] refers to. *)
Definition self_q : M state (list float) :=
  fun s =>
    match ros_node s with
    | Some node => (Ret (q node), s)
    | None => (Raise AttributeError, s)
    end.

Definition set_self_q (v : list float) : M state unit :=
  fun s => (Ret tt, {| ros_node := Some {| q := v |}; tick := tick s;
                       trace := trace s |}).

(** [JointJogNode()]: all targets at zero. *)
Definition JointJogNode_init : JointJogNode :=
  {| q := replicate (length JOINT_NAMES) 0%float |}.

Section WithHost.

Variable h : host.
Variable json_loads : string -> option value.

(** [self.pub.publish(msg)] *)
Definition publish (msg : JointTrajectory) : M state unit :=
  fun s =>
    let failed := publish_error h (tick s) in
    let s' := {| ros_node := ros_node s; tick := S (tick s);
                 trace := trace s ++ [EvPublish msg (negb failed)] |} in
    if failed then (Raise RCLError, s') else (Ret tt, s').

Definition publish_target : M state unit :=
  do qs <- self_q;
  let pt := {| positions := qs; time_from_start := TFS |} in
  publish {| joint_names := JOINT_NAMES; points := [pt] |}.

Definition handle_key (key : value) : M state unit :=
  if negb (truthy key) then ret tt
  else
    match key with
    | VStr s =>
        let k := strip (lower s) in
        if in_set k STOP_KEYS then print (LogStop k) >> publish_target
        else
          match keymap_get KEYMAP k with
          | None => ret tt
          | Some (idx, sgn) =>
              do qs <- self_q;
              match qs !! idx with
              | None => raise IndexError
              | Some old =>
                  let target := (old + float_of_int sgn * STEP_RAD)%float in
                  set_self_q (<[idx := target]> qs) >>
                  print (LogKey k idx target) >>
                  publish_target
              end
          end
    | _ => raise AttributeError
    end.

Definition field (m : pubsub_message) (name : string) : value :=
  match m with
  | AsDict items => dict_get items name
  | AsObject attrs => dict_get attrs name
  end.

Definition loads (v : value) : M state value :=
  match v with
  | VStr s =>
      match json_loads s with
      | Some data => ret data
      | None => raise JSONDecodeError
      end
  | _ => raise TypeError
  end.

Definition get (data : value) (key : string) : M state value :=
  match data with
  | VDict items => ret (dict_get items key)
  | _ => raise AttributeError
  end.

Definition handle_teleop_message (pubsub_message : pubsub_message)
  : M state unit :=
  try_except
    (let payload_str := field pubsub_message "message" in
     let sender := field pubsub_message "senderId" in
     if negb (truthy payload_str) then print (LogNoMessage pubsub_message)
     else
       do data <- loads payload_str;
       do key <- get data "key";
       do ts <- get data "ts";
       print (LogReceived key ts sender) >>
       fun s =>
         match ros_node s with
         | None => print (LogNotReady key) s
         | Some _ => handle_key key s
         end)
    (fun e => print (LogHandlerError e pubsub_message)).

End WithHost.

(** The module as loaded: [ros_node = None]. *)
Definition initial : state := {| ros_node := None; tick := 0; trace := [] |}.

(** After [ros_node = JointJogNode()] in the main block. *)
Definition started : state :=
  {| ros_node := Some JointJogNode_init; tick := 0; trace := [] |}.

End Gzb.

(** ** A decoder for the handlers' parameter

    [Json.loads] decodes the fragment of JSON that needs neither a
    fractional number nor a character above U+00FF: objects, arrays,
    strings with their escapes, integers, [true], [false], [null] and the
    three float constants.  It stands for [json.loads] on the payloads of
    the scenarios below; the general theorems hold for every decoder. *)

Module Json.

Definition quote : ascii := "034"%char.
Definition backslash : ascii := "092"%char.

Definition is_ws (c : ascii) : bool :=
  existsb (Ascii.eqb c) [" "; "009"; "010"; "013"]%char.

Fixpoint skip_ws (s : string) : string :=
  match s with
  | String c r => if is_ws c then skip_ws r else s
  | EmptyString => EmptyString
  end.

Definition is_digit (c : ascii) : bool :=
  let n := nat_of_ascii c in ((48 <=? n) && (n <=? 57))%nat.

Definition digit_val (c : ascii) : Z := Z.of_nat (nat_of_ascii c) - 48.

Definition hex_val (c : ascii) : option nat :=
  let n := nat_of_ascii c in
  if ((48 <=? n) && (n <=? 57))%nat then Some (n - 48)
  else if ((65 <=? n) && (n <=? 70))%nat then Some (n - 55)
  else if ((97 <=? n) && (n <=? 102))%nat then Some (n - 87)
  else None.

(** The text after an opening quote: the decoded string and what follows
    the closing quote. *)
Fixpoint string_body (s : string) : option (string * string) :=
  match s with
  | EmptyString => None
  | String c r =>
      if Ascii.eqb c quote then Some (EmptyString, r)
      else if Ascii.eqb c backslash then
        match r with
        | String e r' =>
            let simple (d : ascii) :=
              match string_body r' with
              | Some (body, rest) => Some (String d body, rest)
              | None => None
              end in
            if Ascii.eqb e quote then simple quote
            else if Ascii.eqb e backslash then simple backslash
            else if Ascii.eqb e "/" then simple "/"%char
            else if Ascii.eqb e "b" then simple "008"%char
            else if Ascii.eqb e "f" then simple "012"%char
            else if Ascii.eqb e "n" then simple "010"%char
            else if Ascii.eqb e "r" then simple "013"%char
            else if Ascii.eqb e "t" then simple "009"%char
            else if Ascii.eqb e "u" then
              match r' with
              | String a (String b (String x (String y r''))) =>
                  match hex_val a, hex_val b, hex_val x, hex_val y with
                  | Some 0, Some 0, Some hi, Some lo =>
                      match string_body r'' with
                      | Some (body, rest) =>
                          Some (String (ascii_of_nat (16 * hi + lo)) body, rest)
                      | None => None
                      end
                  | _, _, _, _ => None
                  end
              | _ => None
              end
            else None
        | EmptyString => None
        end
      else if (nat_of_ascii c <? 32)%nat then None
      else
        match string_body r with
        | Some (body, rest) => Some (String c body, rest)
        | None => None
        end
  end.

(** The digits at the head of [s], read onto [acc]. *)
Fixpoint digits (s : string) (acc : Z) : Z * string :=
  match s with
  | String c r => if is_digit c then digits r (10 * acc + digit_val c) else (acc, s)
  | EmptyString => (acc, s)
  end.

(** An integer without sign: a lone [0], or digits that start with 1-9.
    A fraction or an exponent after it is outside the fragment. *)
Definition natural (s : string) : option (Z * string) :=
  match s with
  | String c r =>
      if negb (is_digit c) then None
      else
        let '(n, rest) := if Ascii.eqb c "0" then (0%Z, r) else digits s 0 in
        match rest with
        | String d _ =>
            if existsb (Ascii.eqb d) ["."; "e"; "E"]%char then None
            else Some (n, rest)
        | EmptyString => Some (n, rest)
        end
  | EmptyString => None
  end.

(** [w] at the head of [s]: what follows it. *)
Fixpoint after (w s : string) : option string :=
  match w, s with
  | EmptyString, _ => Some s
  | String a w', String b s' => if Ascii.eqb a b then after w' s' else None
  | String _ _, EmptyString => None
  end.

Definition scalar (s : string) : option (value * string) :=
  match after "null" s with Some r => Some (VNone, r) | None =>
  match after "true" s with Some r => Some (VBool true, r) | None =>
  match after "false" s with Some r => Some (VBool false, r) | None =>
  match after "NaN" s with Some r => Some (VFloat nan, r) | None =>
  match after "Infinity" s with Some r => Some (VFloat infinity, r) | None =>
  match after "-Infinity" s with Some r => Some (VFloat neg_infinity, r) | None =>
  match s with
  | String c r =>
      if Ascii.eqb c "-" then
        match natural r with
        | Some (n, rest) => Some (VInt (- n), rest)
        | None => None
        end
      else
        match natural s with
        | Some (n, rest) => Some (VInt n, rest)
        | None => None
        end
  | EmptyString => None
  end end end end end end end.

(** One value at the head of [s]; [n] bounds the nesting and the number of
    members and elements read. *)
Fixpoint value_at (n : nat) (s : string) : option (value * string) :=
  match n with
  | O => None
  | S n' =>
      match s with
      | EmptyString => None
      | String c r =>
          if Ascii.eqb c quote then
            match string_body r with
            | Some (body, rest) => Some (VStr body, rest)
            | None => None
            end
          else if Ascii.eqb c "{" then
            match skip_ws r with
            | String d r' =>
                if Ascii.eqb d "}" then Some (VDict [], r')
                else members_at n' (String d r') []
            | EmptyString => None
            end
          else if Ascii.eqb c "[" then
            match skip_ws r with
            | String d r' =>
                if Ascii.eqb d "]" then Some (VList [], r')
                else elements_at n' (String d r') []
            | EmptyString => None
            end
          else scalar s
      end
  end

with members_at (n : nat) (s : string) (acc : list (string * value))
  : option (value * string) :=
  match n with
  | O => None
  | S n' =>
      match s with
      | String c r =>
          if negb (Ascii.eqb c quote) then None
          else
            match string_body r with
            | None => None
            | Some (key, rest) =>
                match skip_ws rest with
                | String d rest' =>
                    if negb (Ascii.eqb d ":") then None
                    else
                      match value_at n' (skip_ws rest') with
                      | None => None
                      | Some (v, rest'') =>
                          let acc' := dict_set acc key v in
                          match skip_ws rest'' with
                          | String e tl =>
                              if Ascii.eqb e "}" then Some (VDict acc', tl)
                              else if Ascii.eqb e ","
                              then members_at n' (skip_ws tl) acc'
                              else None
                          | EmptyString => None
                          end
                      end
                | EmptyString => None
                end
            end
      | EmptyString => None
      end
  end

with elements_at (n : nat) (s : string) (acc : list value)
  : option (value * string) :=
  match n with
  | O => None
  | S n' =>
      match value_at n' s with
      | None => None
      | Some (v, rest) =>
          match skip_ws rest with
          | String e tl =>
              if Ascii.eqb e "]" then Some (VList (acc ++ [v]), tl)
              else if Ascii.eqb e ","
              then elements_at n' (skip_ws tl) (acc ++ [v])
              else None
          | EmptyString => None
          end
      end
  end.

Definition loads (s : string) : option value :=
  match value_at (S (String.length s)) (skip_ws s) with
  | Some (v, rest) =>
      match skip_ws rest with
      | EmptyString => Some v
      | String _ _ => None
      end
  | None => None
  end.

(** A JSON text written with apostrophes where JSON has quotes. *)
Fixpoint text (s : string) : string :=
  match s with
  | EmptyString => EmptyString
  | String c r => String (if Ascii.eqb c "'" then quote else c) (text r)
  end.

End Json.

(** ** What a run shows to the outside *)

Module BakObs.
Import Bak.

(** The events a statement adds to the trace when run from [s]. *)
Definition emitted {A : Type} (m : M state A) (s : state) : list event :=
  drop (length (trace s)) (trace (final m s)).

(** The lines handed to the device, with the port they went to. *)
Fixpoint writes (evs : list event) : list (string * string) :=
  match evs with
  | [] => []
  | EvWrite p data _ :: rest => (p, data) :: writes rest
  | _ :: rest => writes rest
  end.

(** The number of discoveries started: each [init_arduino] scans the USB
    device nodes once. *)
Fixpoint connects (evs : list event) : nat :=
  match evs with
  | [] => 0
  | EvGlob pattern _ :: rest =>
      (if String.eqb pattern "/dev/ttyUSB*" then 1 else 0) + connects rest
  | _ :: rest => connects rest
  end.

Definition is_print (e : event) : bool :=
  match e with
  | EvPrint _ => true
  | _ => false
  end.

(** Nothing but log lines: the message went nowhere. *)
Definition only_logs (evs : list event) : bool := forallb is_print evs.

(** The [cmd] field of the envelope a message carries, [VNone] when the
    message has no payload, the payload is not JSON or not an object. *)
Definition cmd_field (json_loads : string -> option value)
    (m : pubsub_message) : value :=
  match field m "message" with
  | VStr payload =>
      if String.eqb payload EmptyString then VNone
      else
        match json_loads payload with
        | Some (VDict items) => dict_get items "cmd"
        | _ => VNone
        end
  | _ => VNone
  end.


(** The word of a string value. *)
Definition word (v : value) : string :=
  match v with
  | VStr c => c
  | _ => EmptyString
  end.

(** The state after the handler has logged [ls] and nothing else. *)
Definition logged (s : state) (ls : list log_line) : state :=
  {| arduino_ser := arduino_ser s; tick := tick s;
     trace := trace s ++ map EvPrint ls |}.

(** Commands sent one after the other. *)
Definition send_all (h : host) (cmds : list string) (s : state) : state :=
  fold_left (fun s' c => final (send_cmd_to_arduino h c) s') cmds s.

(** A message whose payload is the JSON text [payload]. *)
Definition message_of (payload : string) : pubsub_message :=
  AsDict [("message", VStr payload); ("senderId", VStr "operator")].

(** A host with one USB device on which every call succeeds. *)
Definition host_ok : host :=
  {| glob := fun _ pattern =>
       if String.eqb pattern "/dev/ttyUSB*" then ["/dev/ttyUSB0"] else [];
     io_error := fun _ => false;
     in_waiting := fun _ => 0%Z;
     readline := fun _ => EmptyString |}.

(** A host without any device node. *)
Definition host_empty : host :=
  {| glob := fun _ _ => [];
     io_error := fun _ => true;
     in_waiting := fun _ => 0%Z;
     readline := fun _ => EmptyString |}.

(** A host whose device fails on the first call only. *)
Definition host_flaky : host :=
  {| glob := glob host_ok;
     io_error := fun n => Nat.eqb n 0;
     in_waiting := fun _ => 0%Z;
     readline := fun _ => EmptyString |}.

Definition usb0 : Serial := {| port := "/dev/ttyUSB0"; baudrate := 115200 |}.

Definition connected : state :=
  {| arduino_ser := Some usb0; tick := 0; trace := [] |}.

End BakObs.

Module GzbObs.
Import Gzb.

Definition emitted {A : Type} (m : M state A) (s : state) : list event :=
  drop (length (trace s)) (trace (final m s)).

(** The joint positions of each trajectory handed to the publisher. *)
Fixpoint published (evs : list event) : list (list float) :=
  match evs with
  | [] => []
  | EvPublish msg _ :: rest => flat_map (fun pt => [positions pt]) (points msg)
                               ++ published rest
  | EvPrint _ :: rest => published rest
  end.

Definition logged (s : state) (ls : list log_line) : state :=
  {| ros_node := ros_node s; tick := tick s;
     trace := trace s ++ map EvPrint ls |}.

(** The [key] field of the envelope a message carries. *)
Definition key_field (json_loads : string -> option value)
    (m : pubsub_message) : value :=
  match field m "message" with
  | VStr payload =>
      if String.eqb payload EmptyString then VNone
      else
        match json_loads payload with
        | Some (VDict items) => dict_get items "key"
        | _ => VNone
        end
  | _ => VNone
  end.

(** A key the node acts on: a string that, lowered and stripped, is a stop
    key or a key of the jog table. *)
Definition jog_or_stop (key : value) : bool :=
  match key with
  | VStr s =>
      in_set (strip (lower s)) STOP_KEYS
      || match keymap_get KEYMAP (strip (lower s)) with
         | Some _ => true
         | None => false
         end
  | _ => false
  end.

(** Keys handled one after the other, whatever each call ends with. *)
Definition press_all (h : host) (keys : list string) (s : state) : state :=
  fold_left (fun s' k => final (handle_key h (VStr k)) s') keys s.

(** Messages delivered to the callback one after the other. *)
Definition deliver (h : host) (json_loads : string -> option value)
    (msgs : list pubsub_message) (s : state) : state :=
  fold_left (fun s' m => final (handle_teleop_message h json_loads m) s')
    msgs s.

Definition message_of (payload : string) : pubsub_message :=
  AsDict [("message", VStr payload); ("senderId", VStr "operator")].

(** [c.upper()] for an ASCII letter. *)
Definition upper_char (c : ascii) : ascii :=
  let n := nat_of_ascii c in
  if ((97 <=? n) && (n <=? 122))%nat then ascii_of_nat (n - 32) else c.

Fixpoint upper (s : string) : string :=
  match s with
  | EmptyString => EmptyString
  | String c r => String (upper_char c) (upper r)
  end.

(** A string of whitespace only. *)
Fixpoint blank (s : string) : bool :=
  match s with
  | EmptyString => true
  | String c r => isspace c && blank r
  end.

(** [v] is [k], or [k] in upper case, with whitespace around it. *)
Definition variant_of (k v : string) : Prop :=
  exists pre post : string,
    blank pre = true /\ blank post = true
    /\ (v = (pre ++ k ++ post)%string \/ v = (pre ++ upper k ++ post)%string).

(** A publisher that never fails, and one that always does. *)
Definition host_ok : host := {| publish_error := fun _ => false |}.
Definition host_down : host := {| publish_error := fun _ => true |}.

(** A vector far outside any joint range. *)
Definition far_out : Gzb.state :=
  {| ros_node := Some {| q := [1000; 0; 0; 0; 0; 0; 0]%float |};
     tick := 0; trace := [] |}.

End GzbObs.

(** ** The bare listener: [teleop_robot.py] *)

Module Robot.

(** The PubSub message is the SDK's: the type of [Bak] is used. *)
Definition pubsub_message : Type := Bak.pubsub_message.

Inductive log_line : Type :=
| LogNoMessage (raw : pubsub_message)
| LogReceived (cmd ts sender : value)
| LogHandlerError (e : exn) (raw : pubsub_message).

(** The listener has no global beside what it has printed. *)
Record state : Type := { printed : list log_line }.

Definition print (l : log_line) : M state unit :=
  fun s => (Ret tt, {| printed := printed s ++ [l] |}).

Section WithDecoder.

Variable json_loads : string -> option value.

Definition loads (v : value) : M state value :=
  match v with
  | VStr s =>
      match json_loads s with
      | Some data => ret data
      | None => raise JSONDecodeError
      end
  | _ => raise TypeError
  end.

Definition get (data : value) (key : string) : M state value :=
  match data with
  | VDict items => ret (dict_get items key)
  | _ => raise AttributeError
  end.

Definition handle_teleop_message (pubsub_message : pubsub_message)
  : M state unit :=
  try_except
    (let payload_str := Bak.field pubsub_message "message" in
     let sender := Bak.field pubsub_message "senderId" in
     if negb (truthy payload_str) then print (LogNoMessage pubsub_message)
     else
       do data <- loads payload_str;
       do cmd <- get data "cmd";
       do ts <- get data "ts";
       print (LogReceived cmd ts sender))
    (fun e => print (LogHandlerError e pubsub_message)).

End WithDecoder.

End Robot.

(** ** The camera track: [opencv_teleop.py] *)

Module Track.

Definition TARGET_FPS : Z := 30.
Definition TARGET_WIDTH : Z := 1280.
Definition TARGET_HEIGHT : Z := 720.

Definition VIDEO_CLOCK_RATE : Z := 90000.

(** [fractions.Fraction(1, VIDEO_CLOCK_RATE)], numerator and denominator. *)
Definition VIDEO_TIME_BASE : Z * Z := (1%Z, VIDEO_CLOCK_RATE).

Inductive exn : Type :=
| MediaStreamError
| RuntimeError
| OverflowError.

Inductive outcome (A : Type) : Type :=
| Ret (a : A)
| Raise (e : exn).
Arguments Ret {A} a.
Arguments Raise {A} e.

(** An image: what the camera gave, or the result of [cv2.resize]. *)
Inductive ndarray : Type :=
| Captured (n : nat)
| Resized (src : ndarray) (width height : Z).

Record VideoFrame : Type := {
  image : ndarray;
  format : string;
  pts : Z;
  time_base : Z * Z
}.

Inductive event : Type :=
| EvTime (now : float)
| EvSleep (seconds : float)
| EvCapRead (ok : bool).

(** The host: the wall clock and the camera, asked at the [n]-th call. *)
Record host : Type := {
  time_time : nat -> float;
  cap_read : nat -> option ndarray
}.

(** The track object and the calls and events so far. *)
Record state : Type := {
  readyState : string;
  _start : float;
  _timestamp : option Z;
  tick : nat;
  trace : list event
}.

(** [int(x)]: truncation toward zero; no value for an infinity or a NaN. *)
Definition int_of_float (x : float) : option Z :=
  match Prim2SF x with
  | S754_zero _ => Some 0%Z
  | S754_finite sign m e =>
      let magnitude :=
        if (0 <=? e)%Z then (Zpos m * 2 ^ e)%Z else (Zpos m / 2 ^ (- e))%Z in
      Some (if sign then (- magnitude)%Z else magnitude)
  | S754_infinity _ => None
  | S754_nan => None
  end.

(** [max(0, x)]: [x] when [x > 0], else [0]. *)
Definition max_0 (x : float) : float :=
  if PrimFloat.ltb 0 x then x else 0%float.

(** [a / b] on integers, exact for operands below 2^53. *)
Definition true_div (a b : Z) : float :=
  (float_of_int a / float_of_int b)%float.

Definition process_frame (frame_bgr : ndarray) : ndarray :=
  Resized frame_bgr TARGET_WIDTH TARGET_HEIGHT.

Section WithHost.

Variable h : host.

(** [time.time()] *)
Definition time_now (s : state) : float * state :=
  let now := time_time h (tick s) in
  (now, {| readyState := readyState s; _start := _start s;
           _timestamp := _timestamp s; tick := S (tick s);
           trace := trace s ++ [EvTime now] |}).

Definition next_timestamp (s : state) : outcome (Z * (Z * Z)) * state :=
  let VIDEO_PTIME := true_div 1 TARGET_FPS in
  if negb (String.eqb (readyState s) "live") then (Raise MediaStreamError, s)
  else
    match _timestamp s with
    | Some ts =>
        match int_of_float (VIDEO_PTIME * float_of_int VIDEO_CLOCK_RATE) with
        | None => (Raise OverflowError, s)
        | Some step =>
            let ts' := (ts + step)%Z in
            let s1 := {| readyState := readyState s; _start := _start s;
                         _timestamp := Some ts'; tick := tick s;
                         trace := trace s |} in
            let '(now, s2) := time_now s1 in
            let wait :=
              (_start s2 + true_div ts' VIDEO_CLOCK_RATE - now)%float in
            (Ret (ts', VIDEO_TIME_BASE),
             {| readyState := readyState s2; _start := _start s2;
                _timestamp := _timestamp s2; tick := tick s2;
                trace := trace s2 ++ [EvSleep (max_0 wait)] |})
        end
    | None =>
        let '(now, s1) := time_now s in
        (Ret (0%Z, VIDEO_TIME_BASE),
         {| readyState := readyState s1; _start := now;
            _timestamp := Some 0%Z; tick := tick s1; trace := trace s1 |})
    end.

Definition recv (s : state) : outcome VideoFrame * state :=
  match next_timestamp s with
  | (Raise e, s1) => (Raise e, s1)
  | (Ret (pts, time_base), s1) =>
      let s2 := fun ok =>
        {| readyState := readyState s1; _start := _start s1;
           _timestamp := _timestamp s1; tick := S (tick s1);
           trace := trace s1 ++ [EvCapRead ok] |} in
      match cap_read h (tick s1) with
      | None => (Raise MediaStreamError, s2 false)
      | Some frame =>
          (Ret {| image := process_frame frame; format := "bgr24";
                  pts := pts; time_base := time_base |}, s2 true)
      end
  end.

(** The state after [n] calls of [recv], whatever each ends with. *)
Fixpoint recv_times (n : nat) (s : state) : state :=
  match n with
  | O => s
  | S n' => recv_times n' (snd (recv s))
  end.

End WithHost.

End Track.

(** ** The handlers with a standard output that can refuse a line

    [print] raises when the standard output cannot take the text, for one
    when its encoding has no code for a character of the text.  The
    handlers are given here once more with such a [print]: [print_error]
    says for each line whether printing it raises, and with what.  A line
    that is refused leaves no event. *)

Module BakOut.
Import Bak.

Section WithStdout.

Variable h : host.
Variable print_error : log_line -> option exn.
Variable json_loads : string -> option value.

Definition print (l : log_line) : M state unit :=
  match print_error l with
  | None => emit (EvPrint l)
  | Some e => raise e
  end.

Definition send_cmd_to_arduino (cmd : string) : M state unit :=
  do ser <- get_arduino_ser;
  match ser with
  | None => print (LogNotConnected cmd)
  | Some s =>
      try_except
        (serial_write h s (cmd ++ newline) >>
         print (LogSent cmd) >>
         do waiting <- serial_in_waiting h s;
         if negb (waiting =? 0)%Z then
           do line <- serial_readline h s;
           let resp := strip line in
           if negb (String.eqb resp EmptyString)
           then print (LogReply resp) else ret tt
         else ret tt)
        (fun e => print (LogSendError cmd e))
  end.

Definition handle_teleop_message (pubsub_message : pubsub_message)
  : M state unit :=
  try_except
    (let payload_str := field pubsub_message "message" in
     let sender := field pubsub_message "senderId" in
     if negb (truthy payload_str) then print (LogNoMessage pubsub_message)
     else
       do data <- loads json_loads payload_str;
       do cmd <- get data "cmd";
       do ts <- get data "ts";
       print (LogReceived cmd ts sender) >>
       if in_strs cmd TELEOP_COMMANDS then
         match cmd with
         | VStr c => send_cmd_to_arduino c
         | _ => raise TypeError
         end
       else print (LogIgnoring cmd data))
    (fun e => print (LogHandlerError e pubsub_message)).

End WithStdout.

End BakOut.

Module GzbOut.
Import Gzb.

Section WithStdout.

Variable h : host.
Variable print_error : log_line -> option exn.
Variable json_loads : string -> option value.

Definition print (l : log_line) : M state unit :=
  match print_error l with
  | None => emit (EvPrint l)
  | Some e => raise e
  end.

Definition handle_key (key : value) : M state unit :=
  if negb (truthy key) then ret tt
  else
    match key with
    | VStr s =>
        let k := strip (lower s) in
        if in_set k STOP_KEYS then print (LogStop k) >> publish_target h
        else
          match keymap_get KEYMAP k with
          | None => ret tt
          | Some (idx, sgn) =>
              do qs <- self_q;
              match qs !! idx with
              | None => raise IndexError
              | Some old =>
                  let target := (old + float_of_int sgn * STEP_RAD)%float in
                  set_self_q (<[idx := target]> qs) >>
                  print (LogKey k idx target) >>
                  publish_target h
              end
          end
    | _ => raise AttributeError
    end.

Definition handle_teleop_message (pubsub_message : pubsub_message)
  : M state unit :=
  try_except
    (let payload_str := field pubsub_message "message" in
     let sender := field pubsub_message "senderId" in
     if negb (truthy payload_str) then print (LogNoMessage pubsub_message)
     else
       do data <- loads json_loads payload_str;
       do key <- get data "key";
       do ts <- get data "ts";
       print (LogReceived key ts sender) >>
       fun s =>
         match ros_node s with
         | None => print (LogNotReady key) s
         | Some _ => handle_key key s
         end)
    (fun e => print (LogHandlerError e pubsub_message)).

End WithStdout.

End GzbOut.

(** *** Two standard outputs *)

Module Stdout.










(** A standard output that takes every line. *)
Definition bak_accepts : Bak.log_line -> option exn := fun _ => None.
Definition gzb_accepts : Gzb.log_line -> option exn := fun _ => None.


End Stdout.

(** ** More of what a run shows *)

Module BakMore.
Import Bak BakObs.

(** The ports a discovery started to probe, in order. *)
Fixpoint probed (evs : list event) : list string :=
  match evs with
  | [] => []
  | EvPrint (LogProbing p) :: rest => p :: probed rest
  | _ :: rest => probed rest
  end.

(** The ports whose probe was given up, in order. *)
Fixpoint failed (evs : list event) : list string :=
  match evs with
  | [] => []
  | EvPrint (LogProbeFailed p _) :: rest => p :: failed rest
  | _ :: rest => failed rest
  end.

(** An event of a send: a write, a look at the input buffer, a read of a
    line, or a log line. *)
Definition send_event (e : event) : bool :=
  match e with
  | EvWrite _ _ _ | EvInWaiting _ _ | EvReadline _ _ | EvPrint _ => true
  | _ => false
  end.

(** [s] with the global [arduino_ser] set to [v]. *)
Definition with_ser (v : option Serial) (s : state) : state :=
  {| arduino_ser := v; tick := tick s; trace := trace s |}.

(** Messages delivered to the callback one after the other. *)
Definition deliver (h : host) (json_loads : string -> option value)
    (msgs : list pubsub_message) (s : state) : state :=
  fold_left (fun s' m => final (handle_teleop_message h json_loads m) s')
    msgs s.

(** The line a message puts on an open link, if any. *)
Definition line_of (json_loads : string -> option value) (ser : Serial)
    (m : pubsub_message) : list (string * string) :=
  if in_strs (cmd_field json_loads m) TELEOP_COMMANDS
  then [(port ser, (word (cmd_field json_loads m) ++ newline)%string)]
  else [].


(** A state after the two scans of a discovery. *)
Definition scanned : state :=
  {| arduino_ser := None; tick := 2; trace := [] |}.

(** A host whose first device call succeeds and whose later calls fail. *)
Definition host_dies : host :=
  {| glob := glob host_ok;
     io_error := fun n => negb (Nat.eqb n 2);
     in_waiting := fun _ => 0%Z;
     readline := fun _ => EmptyString |}.


(** A host whose device passes the probe and then refuses to open. *)
Definition host_closes : host :=
  {| glob := glob host_ok;
     io_error := fun n => Nat.eqb n 6;
     in_waiting := fun _ => 0%Z;
     readline := fun _ => EmptyString |}.

End BakMore.

Module GzbMore.
Import Gzb GzbObs.

(** The trajectory [publish_target] builds from the positions [qs]. *)
Definition target_msg (qs : list float) : JointTrajectory :=
  {| joint_names := JOINT_NAMES;
     points := [{| positions := qs; time_from_start := TFS |}] |}.

(** A trajectory with the seven names and one point of seven positions. *)
Definition well_formed (e : event) : Prop :=
  match e with
  | EvPublish msg _ =>
      exists qs, msg = target_msg qs /\ length qs = length JOINT_NAMES
  | EvPrint _ => True
  end.

(** Seven joints and only well-formed trajectories so far. *)
Definition sound (s : state) : Prop :=
  (exists node, ros_node s = Some node
                /\ length (q node) = length JOINT_NAMES)
  /\ Forall well_formed (trace s).

End GzbMore.

Module TrackObs.
Import Track.

(** The seconds of each sleep, in order. *)
Fixpoint sleeps (evs : list event) : list float :=
  match evs with
  | [] => []
  | EvSleep x :: rest => x :: sleeps rest
  | _ :: rest => sleeps rest
  end.

(** The time stamp [n] calls of [next_timestamp] return last. *)
Fixpoint nth_timestamp (h : host) (n : nat) (s : state)
  : outcome (Z * (Z * Z)) :=
  match n with
  | O => fst (next_timestamp h s)
  | S n' => nth_timestamp h n' (snd (next_timestamp h s))
  end.

(** The time stamps of the frames [n] calls of [recv] deliver. *)
Fixpoint recv_pts (h : host) (n : nat) (s : state) : list Z :=
  match n with
  | O => []
  | S n' =>
      match recv h s with
      | (Ret vf, s') => pts vf :: recv_pts h n' s'
      | (Raise _, s') => recv_pts h n' s'
      end
  end.

(** The last time stamp handed out, [-1] before the first. *)
Definition last_timestamp (s : state) : Z :=
  match _timestamp s with
  | Some ts => ts
  | None => (-1)%Z
  end.

(** A track that is live and has handed out no time stamp yet. *)
Definition fresh : state :=
  {| readyState := "live"; _start := 0; _timestamp := None;
     tick := 0; trace := [] |}.

(** A live track that has handed out its first time stamp. *)
Definition rolling : state :=
  {| readyState := "live"; _start := 0; _timestamp := Some 0%Z;
     tick := 1; trace := [] |}.

(** A clock that runs a hundredth of a second per call, with a camera that
    gives a frame at every call, and with one that misses two calls. *)
Definition host_ok : host :=
  {| time_time := fun n => (float_of_int (Z.of_nat n) / 100)%float;
     cap_read := fun n => Some (Captured n) |}.

Definition host_blink : host :=
  {| time_time := time_time host_ok;
     cap_read := fun n =>
       if (Nat.eqb n 2 || Nat.eqb n 3)%bool then None
       else Some (Captured n) |}.

End TrackObs.

(** ** The decoder on sample texts *)

Example loads_forward :
  Json.loads (Json.text "{'cmd':'forward','ts':1}")
  = Some (VDict [("cmd", VStr "forward"); ("ts", VInt 1)]).
Proof. reflexivity. Qed.

Example loads_nested :
  Json.loads (Json.text " {'a': [1, -20, {'b': null}], 'a': 'xA\n'} ")
  = Some (VDict [("a", VStr ("xA" ++ Bak.newline))]).
Proof. reflexivity. Qed.

Example loads_garbage : Json.loads "forward" = None.
Proof. reflexivity. Qed.

Example loads_trailing : Json.loads (Json.text "{'cmd':'left'} x") = None.
Proof. reflexivity. Qed.

Example loads_list : Json.loads "[1,2]" = Some (VList [VInt 1; VInt 2]).
Proof. reflexivity. Qed.

(** ** The serial bridge: proofs *)

(** Events appended one at a time, read as one list. *)
Ltac trace_norm := rewrite <- ?app_assoc; cbn [app].

Section BakFacts.
Import Bak BakObs.

Variable h : host.
Variable json_loads : string -> option value.

Lemma emitted_app {A : Type} (m : M state A) (s : state) (evs : list event) :
  trace (final m s) = trace s ++ evs -> emitted m s = evs.
Proof.
  intros H. unfold emitted. rewrite H. apply drop_app_length.
Qed.

Lemma send_not_connected (cmd : string) (s : state) :
  arduino_ser s = None ->
  send_cmd_to_arduino h cmd s
  = (Ret tt, {| arduino_ser := None; tick := tick s;
                trace := trace s ++ [EvPrint (LogNotConnected cmd)] |}).
Proof.
  intros H. unfold send_cmd_to_arduino, bind, get_arduino_ser.
  rewrite H. unfold print, emit. rewrite H. reflexivity.
Qed.

(** Running a statement from a state written out field by field. *)
Ltac bak_run :=
  unfold result, final, emitted, handle_teleop_message, send_cmd_to_arduino,
    init_arduino, find_arduino_port, loads, get, glob_glob, serial_Serial,
    serial_write, serial_read, serial_close, serial_in_waiting,
    serial_readline, device_read, device_call, set_arduino_ser,
    get_arduino_ser, sleep, print, emit, try_except, bind, raise, ret;
  cbn [arduino_ser tick trace fst snd].

Lemma send_connected (cmd : string) (s : state) (ser : Serial) :
  arduino_ser s = Some ser ->
  exists rest,
    result (send_cmd_to_arduino h cmd) s = Ret tt
    /\ arduino_ser (final (send_cmd_to_arduino h cmd) s) = Some ser
    /\ trace (final (send_cmd_to_arduino h cmd) s)
       = trace s ++ EvWrite (port ser) (cmd ++ newline)
                      (negb (io_error h (tick s))) :: rest
    /\ writes rest = []
    /\ (io_error h (tick s) = true ->
        rest = [EvPrint (LogSendError cmd SerialException)]
        /\ tick (final (send_cmd_to_arduino h cmd) s) = S (tick s))
    /\ (io_error h (tick s) = false ->
        exists rest', rest = EvPrint (LogSent cmd) :: rest').
Proof.
  destruct s as [a t tr]. cbn [arduino_ser tick trace]. intros ->.
  bak_run.
  destruct (io_error h t) eqn:Ew; cbn.
  - eexists. trace_norm. repeat split; try reflexivity. discriminate.
  - destruct (io_error h (S t)) eqn:Ei; cbn.
    + eexists. trace_norm. repeat split; try reflexivity; try discriminate.
      eauto.
    + destruct (in_waiting h (S t) =? 0)%Z; cbn.
      * eexists. trace_norm. repeat split; try reflexivity; try discriminate.
        eauto.
      * destruct (io_error h (S (S t))) eqn:Er; cbn.
        -- eexists. trace_norm.
           repeat split; try reflexivity; try discriminate. eauto.
        -- destruct (String.eqb (strip (readline h (S (S t)))) EmptyString);
             cbn; eexists; trace_norm;
             repeat split; try reflexivity; try discriminate; eauto.
Qed.

Lemma send_returns (cmd : string) (s : state) :
  result (send_cmd_to_arduino h cmd) s = Ret tt.
Proof.
  destruct (arduino_ser s) as [ser|] eqn:E.
  - destruct (send_connected cmd s ser E) as (rest & H & _). exact H.
  - unfold result. rewrite send_not_connected by exact E. reflexivity.
Qed.

Lemma send_keeps_handle (cmd : string) (s : state) :
  arduino_ser (final (send_cmd_to_arduino h cmd) s) = arduino_ser s.
Proof.
  destruct (arduino_ser s) as [ser|] eqn:E.
  - destruct (send_connected cmd s ser E) as (rest & _ & H & _). exact H.
  - unfold final. rewrite send_not_connected by exact E. reflexivity.
Qed.

(** A message whose [cmd] is not one of the four words is logged and
    dropped. *)
Lemma handle_unlisted (m : pubsub_message) (s : state) :
  in_strs (cmd_field json_loads m) TELEOP_COMMANDS = false ->
  exists ls,
    handle_teleop_message h json_loads m s = (Ret tt, logged s ls).
Proof.
  intros Hc. destruct s as [a t tr]. unfold cmd_field in Hc.
  unfold handle_teleop_message, try_except, bind, loads, get, print, emit,
    raise, ret, logged.
  cbn [arduino_ser tick trace].
  destruct (field m "message") as [| b | n | x | p | xs | items] eqn:Ef;
    cbn [truthy negb].
  1: { exists [LogNoMessage m]. reflexivity. }
  1: { destruct b; cbn [negb]; [exists [LogHandlerError TypeError m]
                        | exists [LogNoMessage m]]; reflexivity. }
  1: { destruct (n =? 0)%Z; cbn [negb]; [exists [LogNoMessage m]
         | exists [LogHandlerError TypeError m]]; reflexivity. }
  1: { destruct (PrimFloat.eqb x 0); cbn [negb]; [exists [LogNoMessage m]
         | exists [LogHandlerError TypeError m]]; reflexivity. }
  2: { destruct xs; [exists [LogNoMessage m]
         | exists [LogHandlerError TypeError m]]; reflexivity. }
  2: { destruct items; [exists [LogNoMessage m]
         | exists [LogHandlerError TypeError m]]; reflexivity. }
  destruct (String.eqb p EmptyString); cbn [negb].
  { exists [LogNoMessage m]. reflexivity. }
  destruct (json_loads p) as [data|].
  2: { exists [LogHandlerError JSONDecodeError m]. reflexivity. }
  destruct data;
    try (exists [LogHandlerError AttributeError m]; reflexivity).
  rewrite Hc. cbn [arduino_ser tick trace].
  eexists [LogReceived _ _ _; LogIgnoring _ _]. cbn [map]. trace_norm.
  reflexivity.
Qed.

(** A message whose [cmd] is one of the four words reaches
    [send_cmd_to_arduino] with that word. *)
Lemma handle_listed (m : pubsub_message) (s : state) (c : string) :
  cmd_field json_loads m = VStr c ->
  In c TELEOP_COMMANDS ->
  exists ts,
    handle_teleop_message h json_loads m s
    = send_cmd_to_arduino h c
        (logged s [LogReceived (VStr c) ts (field m "senderId")]).
Proof.
  intros Hc Hin. unfold cmd_field in Hc.
  destruct (field m "message") as [| b | n | x | p | xs | items] eqn:Ef;
    try discriminate.
  destruct (String.eqb p EmptyString) eqn:Ep; try discriminate.
  destruct (json_loads p) as [data|] eqn:Ej; try discriminate.
  destruct data as [| | | | | | items]; try discriminate.
  exists (dict_get items "ts").
  assert (Hl : in_strs (VStr c) TELEOP_COMMANDS = true).
  { unfold in_strs. apply existsb_exists. exists c. split; [exact Hin|].
    apply String.eqb_refl. }
  pose proof (send_returns c
    (logged s [LogReceived (VStr c) (dict_get items "ts") (field m "senderId")]))
    as Hr.
  unfold result in Hr.
  unfold handle_teleop_message, try_except, bind, loads, get, print, emit.
  rewrite Ef. cbn [truthy]. rewrite Ep. cbn [negb].
  rewrite Ej. unfold ret. cbv beta iota. rewrite Hc. cbv beta iota.
  rewrite Hl. unfold logged in *. cbn [map] in *.
  destruct (send_cmd_to_arduino h c _) as [r s'] eqn:Es.
  cbn in Hr. subst r. reflexivity.
Qed.

Lemma send_all_not_connected (cmds : list string) (s : state) :
  arduino_ser s = None ->
  send_all h cmds s
  = {| arduino_ser := None; tick := tick s;
       trace := trace s ++ map (fun c => EvPrint (LogNotConnected c)) cmds |}.
Proof.
  revert s. induction cmds as [|c cmds IH]; intros s Hs.
  - destruct s as [a t tr]. cbn in *. subst a. rewrite app_nil_r. reflexivity.
  - change (send_all h (c :: cmds) s)
      with (send_all h cmds (final (send_cmd_to_arduino h c) s)).
    unfold final. rewrite send_not_connected by exact Hs. cbn [snd].
    rewrite IH by reflexivity. cbn [tick trace map]. trace_norm. reflexivity.
Qed.

Lemma init_no_candidates (s : state) :
  glob h (tick s) "/dev/ttyUSB*" = [] ->
  glob h (S (tick s)) "/dev/ttyACM*" = [] ->
  init_arduino h s
  = (Ret tt,
     {| arduino_ser := None; tick := S (S (tick s));
        trace := trace s ++
          [EvGlob "/dev/ttyUSB*" []; EvGlob "/dev/ttyACM*" [];
           EvPrint (LogScanning []); EvPrint LogNoValidPort;
           EvPrint LogCouldNotFind] |}).
Proof.
  destruct s as [a t tr]. cbn [tick]. intros Hu Ha. bak_run.
  rewrite Hu, Ha. cbn. trace_norm. reflexivity.
Qed.

Lemma init_first_candidate (s : state) (p : string) (rest : list string) :
  glob h (tick s) "/dev/ttyUSB*" ++ glob h (S (tick s)) "/dev/ttyACM*"
  = p :: rest ->
  (forall k, k < 5 -> io_error h (2 + tick s + k) = false) ->
  init_arduino h s
  = (Ret tt,
     {| arduino_ser := Some {| port := p; baudrate := 115200 |};
        tick := 7 + tick s;
        trace := trace s ++
          [EvGlob "/dev/ttyUSB*" (glob h (tick s) "/dev/ttyUSB*");
           EvGlob "/dev/ttyACM*" (glob h (S (tick s)) "/dev/ttyACM*");
           EvPrint (LogScanning (p :: rest));
           EvPrint (LogProbing p);
           EvOpen p 115200 true; EvSleep 2000;
           EvWrite p ("ping" ++ newline) true; EvSleep 100;
           EvRead p 10 true; EvClose p true;
           EvPrint (LogLooksValid p);
           EvPrint (LogConnecting p 115200);
           EvOpen p 115200 true; EvSleep 2000;
           EvPrint LogConnected] |}).
Proof.
  destruct s as [a t tr]. cbn [tick]. intros Hg Hio.
  pose proof (Hio 0 ltac:(lia)) as H0. pose proof (Hio 1 ltac:(lia)) as H1.
  pose proof (Hio 2 ltac:(lia)) as H2. pose proof (Hio 3 ltac:(lia)) as H3.
  pose proof (Hio 4 ltac:(lia)) as H4.
  replace (2 + t + 0) with (S (S t)) in H0 by lia.
  replace (2 + t + 1) with (S (S (S t))) in H1 by lia.
  replace (2 + t + 2) with (S (S (S (S t)))) in H2 by lia.
  replace (2 + t + 3) with (S (S (S (S (S t))))) in H3 by lia.
  replace (2 + t + 4) with (S (S (S (S (S (S t)))))) in H4 by lia.
  bak_run. rewrite Hg. cbn [probe_candidates].
  bak_run. rewrite H0. cbn. rewrite H1. cbn. rewrite H2. cbn. rewrite H3. cbn.
  rewrite H4. cbn. trace_norm. reflexivity.
Qed.

(** C8: when discovery finds no device node the connect ends without a
    session ([arduino_ser] is [None], the two no-port lines are logged and
    nothing is opened), and from then on every send returns normally,
    reports not connected and hands nothing to a device. *)
Theorem no_device_then_not_connected (s : state) :
  glob h (tick s) "/dev/ttyUSB*" = [] ->
  glob h (S (tick s)) "/dev/ttyACM*" = [] ->
  result (init_arduino h) s = Ret tt
  /\ arduino_ser (final (init_arduino h) s) = None
  /\ emitted (init_arduino h) s
     = [EvGlob "/dev/ttyUSB*" []; EvGlob "/dev/ttyACM*" [];
        EvPrint (LogScanning []); EvPrint LogNoValidPort;
        EvPrint LogCouldNotFind]
  /\ forall cmds : list string,
       arduino_ser (send_all h cmds (final (init_arduino h) s)) = None
       /\ trace (send_all h cmds (final (init_arduino h) s))
          = trace (final (init_arduino h) s)
            ++ map (fun c => EvPrint (LogNotConnected c)) cmds
       /\ forall c : string,
            send_cmd_to_arduino h c (send_all h cmds (final (init_arduino h) s))
            = (Ret tt,
               logged (send_all h cmds (final (init_arduino h) s))
                 [LogNotConnected c]).
Proof.
  intros Hu Ha.
  assert (Hi := init_no_candidates s Hu Ha).
  assert (Hn : arduino_ser (final (init_arduino h) s) = None).
  { unfold final. rewrite Hi. reflexivity. }
  split; [unfold result; rewrite Hi; reflexivity|].
  split; [exact Hn|].
  split.
  { apply emitted_app. unfold final. rewrite Hi. reflexivity. }
  intros cmds. rewrite (send_all_not_connected cmds _ Hn).
  cbn [arduino_ser trace].
  split; [reflexivity|]. split; [reflexivity|].
  intros c. rewrite send_not_connected by reflexivity. reflexivity.
Qed.

Lemma in_strs_true (v : value) (ss : list string) :
  in_strs v ss = true <-> exists c, v = VStr c /\ In c ss.
Proof.
  unfold in_strs. rewrite existsb_exists. split.
  - intros (c & Hin & He). destruct v; try discriminate.
    cbn in He. apply String.eqb_eq in He. subst. eauto.
  - intros (c & -> & Hin). exists c. split; [exact Hin|].
    apply String.eqb_refl.
Qed.

Lemma writes_prints (ls : list log_line) : writes (map EvPrint ls) = [].
Proof. induction ls; [reflexivity|]. cbn. assumption. Qed.

Lemma connects_prints (ls : list log_line) : connects (map EvPrint ls) = 0.
Proof. induction ls; [reflexivity|]. cbn. assumption. Qed.

Lemma only_logs_prints (ls : list log_line) :
  only_logs (map EvPrint ls) = true.
Proof. induction ls; [reflexivity|]. cbn. assumption. Qed.

Lemma emitted_logged {A : Type} (m : M state A) (s : state) (r : outcome A)
    (ls : list log_line) :
  m s = (r, logged s ls) -> emitted m s = map EvPrint ls.
Proof.
  intros H. apply emitted_app. unfold final. rewrite H. reflexivity.
Qed.

Lemma handle_returns (m : pubsub_message) (s : state) :
  result (handle_teleop_message h json_loads m) s = Ret tt.
Proof.
  destruct (in_strs (cmd_field json_loads m) TELEOP_COMMANDS) eqn:E.
  - apply in_strs_true in E. destruct E as (c & Hc & Hin).
    destruct (handle_listed m s c Hc Hin) as (ts & H).
    unfold result. rewrite H. apply send_returns.
  - destruct (handle_unlisted m s E) as (ls & H).
    unfold result. rewrite H. reflexivity.
Qed.

(** A payload that is not JSON ends in the handler's except branch. *)
Lemma bak_not_json (m : pubsub_message) (s : state) (p : string) :
  field m "message" = VStr p -> p <> EmptyString -> json_loads p = None ->
  handle_teleop_message h json_loads m s
  = (Ret tt, logged s [LogHandlerError JSONDecodeError m]).
Proof.
  intros Hf Hp Hj. apply String.eqb_neq in Hp.
  unfold handle_teleop_message, try_except, bind, loads.
  rewrite Hf. cbn [truthy]. rewrite Hp. cbn [negb]. rewrite Hj.
  reflexivity.
Qed.

(** C2, as the code has it: a motion command that finds the link not
    connected is logged and dropped at once.  No discovery is started, no
    device is opened, nothing is written or kept for later, and the link
    stays unconnected. *)
Theorem not_connected_command_dropped (m : pubsub_message) (s : state)
    (c : string) :
  arduino_ser s = None ->
  cmd_field json_loads m = VStr c ->
  In c TELEOP_COMMANDS ->
  (exists ts,
     handle_teleop_message h json_loads m s
     = (Ret tt,
        logged s [LogReceived (VStr c) ts (field m "senderId");
                  LogNotConnected c]))
  /\ connects (emitted (handle_teleop_message h json_loads m) s) = 0
  /\ writes (emitted (handle_teleop_message h json_loads m) s) = []
  /\ arduino_ser (final (handle_teleop_message h json_loads m) s) = None
  /\ tick (final (handle_teleop_message h json_loads m) s) = tick s.
Proof.
  intros Hs Hc Hin.
  destruct (handle_listed m s c Hc Hin) as (ts & H).
  assert (H' : handle_teleop_message h json_loads m s
               = (Ret tt,
                  logged s [LogReceived (VStr c) ts (field m "senderId");
                            LogNotConnected c])).
  { rewrite H, send_not_connected by exact Hs.
    unfold logged. cbn [arduino_ser tick trace map]. rewrite Hs.
    trace_norm. reflexivity. }
  split; [exists ts; exact H'|].
  rewrite (emitted_logged _ _ _ _ H'). unfold final. rewrite H'.
  split; [apply connects_prints|]. split; [apply writes_prints|].
  split; [exact Hs|reflexivity].
Qed.

(** C3, as the code has it: a write that fails on an open session is
    logged and leaves [arduino_ser] as it was, so the link still counts as
    connected; no send, failed or not, ever changes [arduino_ser].  A later
    [init_arduino] whose first candidate answers puts a fresh handle in
    [arduino_ser], and a send whose write succeeds then hands exactly its
    line to that port and logs it as sent. *)
Theorem write_failure_keeps_handle (s : state) (ser : Serial) (cmd : string) :
  arduino_ser s = Some ser ->
  io_error h (tick s) = true ->
  send_cmd_to_arduino h cmd s
  = (Ret tt,
     {| arduino_ser := Some ser; tick := S (tick s);
        trace := trace s ++
          [EvWrite (port ser) (cmd ++ newline) false;
           EvPrint (LogSendError cmd SerialException)] |})
  /\ (forall (s0 : state) (cmd0 : string),
        arduino_ser (final (send_cmd_to_arduino h cmd0) s0) = arduino_ser s0)
  /\ forall (s1 : state) (p : string) (rest : list string) (cmd' : string),
       glob h (tick s1) "/dev/ttyUSB*" ++ glob h (S (tick s1)) "/dev/ttyACM*"
       = p :: rest ->
       (forall k, k < 6 -> io_error h (2 + tick s1 + k) = false) ->
       arduino_ser (final (init_arduino h) s1)
       = Some {| port := p; baudrate := 115200 |}
       /\ result (send_cmd_to_arduino h cmd') (final (init_arduino h) s1)
          = Ret tt
       /\ writes (emitted (send_cmd_to_arduino h cmd')
                    (final (init_arduino h) s1))
          = [(p, (cmd' ++ newline)%string)]
       /\ In (EvPrint (LogSent cmd'))
            (emitted (send_cmd_to_arduino h cmd') (final (init_arduino h) s1)).
Proof.
  intros Hs Hw. split; [|split].
  - destruct (send_connected cmd s ser Hs)
      as (rest & Hr & Ha & Ht & _ & Hfail & _).
    destruct (Hfail Hw) as [-> Htick].
    unfold result, final in *.
    destruct (send_cmd_to_arduino h cmd s) as [r [a t tr]].
    cbn [fst snd arduino_ser tick trace] in *. subst.
    rewrite Hw. reflexivity.
  - intros s0 cmd0. apply send_keeps_handle.
  - intros s1 p rest cmd' Hg Hio.
    assert (Hi := init_first_candidate s1 p rest Hg
                    (fun k Hk => Hio k ltac:(lia))).
    unfold final at 1. rewrite Hi. cbn [snd arduino_ser].
    split; [reflexivity|].
    set (s2 := final (init_arduino h) s1).
    assert (H2 : arduino_ser s2 = Some {| port := p; baudrate := 115200 |}).
    { unfold s2, final. rewrite Hi. reflexivity. }
    assert (Ht2 : io_error h (tick s2) = false).
    { unfold s2, final. rewrite Hi. cbn [snd tick].
      replace (7 + tick s1) with (2 + tick s1 + 5) by lia. apply Hio. lia. }
    destruct (send_connected cmd' s2 _ H2)
      as (evs & Hr & _ & Ht & Hwr & _ & Hok).
    destruct (Hok Ht2) as (evs' & ->).
    split; [exact Hr|].
    rewrite (emitted_app _ _ _ Ht). rewrite Ht2. cbn [negb port writes].
    cbn in Hwr. rewrite Hwr. split; [reflexivity|]. right. left. reflexivity.
Qed.

(** With the [print] of [Bak], which takes every line: whatever the
    message, the handler returns, and the lines it hands to the device are
    exactly these: on an open link, the one line made of the [cmd] word
    and a newline when [cmd] is one of the four words, and nothing
    otherwise; on an unconnected link, nothing, and a listed word is then
    reported as not sent.  A message whose [cmd] is not one of the four
    words leaves nothing but log lines. *)
Theorem only_listed_words_reach_device (m : pubsub_message) (s : state) :
  result (handle_teleop_message h json_loads m) s = Ret tt
  /\ writes (emitted (handle_teleop_message h json_loads m) s)
     = match arduino_ser s with
       | Some ser =>
           if in_strs (cmd_field json_loads m) TELEOP_COMMANDS
           then [(port ser, (word (cmd_field json_loads m) ++ newline)%string)]
           else []
       | None => []
       end
  /\ (forall ser, arduino_ser s = Some ser ->
      (writes (emitted (handle_teleop_message h json_loads m) s) <> []
       <-> exists c, cmd_field json_loads m = VStr c /\ In c TELEOP_COMMANDS))
  /\ (forall c, arduino_ser s = None ->
      cmd_field json_loads m = VStr c -> In c TELEOP_COMMANDS ->
      In (EvPrint (LogNotConnected c))
        (emitted (handle_teleop_message h json_loads m) s))
  /\ (in_strs (cmd_field json_loads m) TELEOP_COMMANDS = false ->
      only_logs (emitted (handle_teleop_message h json_loads m) s) = true
      /\ tick (final (handle_teleop_message h json_loads m) s) = tick s).
Proof.
  assert (Hw : writes (emitted (handle_teleop_message h json_loads m) s)
     = match arduino_ser s with
       | Some ser =>
           if in_strs (cmd_field json_loads m) TELEOP_COMMANDS
           then [(port ser, (word (cmd_field json_loads m) ++ newline)%string)]
           else []
       | None => []
       end).
  { destruct (in_strs (cmd_field json_loads m) TELEOP_COMMANDS) eqn:E.
    - apply in_strs_true in E. destruct E as (c & Hc & Hin).
      destruct (handle_listed m s c Hc Hin) as (ts & H).
      rewrite Hc. cbn [word].
      set (s1 := logged s [LogReceived (VStr c) ts (field m "senderId")]) in *.
      destruct (arduino_ser s) as [ser|] eqn:Es.
      + destruct (send_connected c s1 ser Es) as (evs & _ & _ & Ht & Hwr & _).
        unfold emitted, final in *. rewrite H, Ht.
        unfold s1, logged. cbn [trace map].
        rewrite <- app_assoc, drop_app_length. cbn. rewrite Hwr. reflexivity.
      + assert (Hs1 : arduino_ser s1 = None) by exact Es.
        unfold emitted, final. rewrite H, send_not_connected by exact Hs1.
        unfold s1, logged. cbn [snd trace tick map].
        rewrite <- app_assoc, drop_app_length. reflexivity.
    - destruct (handle_unlisted m s E) as (ls & H).
      rewrite (emitted_logged _ _ _ _ H), writes_prints.
      destruct (arduino_ser s); reflexivity. }
  split; [apply handle_returns|]. split; [exact Hw|]. split; [|split].
  - intros ser Hs. rewrite Hw, Hs. rewrite <- in_strs_true.
    destruct (in_strs (cmd_field json_loads m) TELEOP_COMMANDS).
    + split; [reflexivity|discriminate].
    + split; [intros Hn; contradiction Hn; reflexivity|discriminate].
  - intros c Hs Hc Hin. destruct (handle_listed m s c Hc Hin) as (ts & H).
    unfold emitted, final. rewrite H, send_not_connected by exact Hs.
    unfold logged. cbn [snd trace tick map].
    rewrite <- app_assoc, drop_app_length. right. left. reflexivity.
  - intros E. destruct (handle_unlisted m s E) as (ls & H).
    rewrite (emitted_logged _ _ _ _ H). split; [apply only_logs_prints|].
    unfold final. rewrite H. reflexivity.
Qed.

End BakFacts.

Section BakWitnesses.
Import Bak BakObs.

Lemma no_device_then_not_connected_witness :
  arduino_ser (final (init_arduino host_empty) initial) = None
  /\ result (send_cmd_to_arduino host_empty "forward")
       (final (init_arduino host_empty) initial) = Ret tt.
Proof.
  destruct (no_device_then_not_connected host_empty initial eq_refl eq_refl)
    as (_ & Hn & _ & Hs).
  split; [exact Hn|]. destruct (Hs []) as (_ & _ & Hc).
  unfold result. cbn [send_all fold_left] in Hc. rewrite Hc. reflexivity.
Defined.

(** The claim of C2 fails on the code: with a device present on the host,
    a [forward] command that finds the link unconnected starts no
    discovery and writes nothing; it only leaves two log lines. *)
Lemma reconnect_and_retry_refuted :
  emitted (handle_teleop_message host_ok Json.loads
             (message_of (Json.text "{'cmd':'forward','ts':1}"))) initial
  = [EvPrint (LogReceived (VStr "forward") (VInt 1) (VStr "operator"));
     EvPrint (LogNotConnected "forward")]
  /\ ~ (connects
          (emitted (handle_teleop_message host_ok Json.loads
                      (message_of (Json.text "{'cmd':'forward','ts':1}")))
             initial) = 1
        /\ writes
             (emitted (handle_teleop_message host_ok Json.loads
                         (message_of (Json.text "{'cmd':'forward','ts':1}")))
                initial)
           = [("/dev/ttyUSB0", ("forward" ++ newline)%string)]).
Proof.
  split; [vm_compute; reflexivity|].
  intros [Hc _]. vm_compute in Hc. discriminate Hc.
Qed.

Lemma not_connected_command_dropped_witness :
  writes (emitted (handle_teleop_message host_ok Json.loads
                     (message_of (Json.text "{'cmd':'forward','ts':1}")))
            initial) = []
  /\ arduino_ser (final (handle_teleop_message host_ok Json.loads
                           (message_of (Json.text "{'cmd':'forward','ts':1}")))
                    initial) = None.
Proof.
  destruct (not_connected_command_dropped host_ok Json.loads
              (message_of (Json.text "{'cmd':'forward','ts':1}")) initial
              "forward" eq_refl eq_refl (or_introl eq_refl))
    as (_ & _ & Hw & Hs & _).
  split; [exact Hw|exact Hs].
Defined.

(** The claim of C3 fails on the code: after a write that fails on an
    open session, [arduino_ser] still holds the handle. *)
Lemma write_failure_disconnects_refuted :
  emitted (send_cmd_to_arduino host_flaky "forward") connected
  = [EvWrite "/dev/ttyUSB0" ("forward" ++ newline) false;
     EvPrint (LogSendError "forward" SerialException)]
  /\ arduino_ser (final (send_cmd_to_arduino host_flaky "forward") connected)
     = Some usb0
  /\ ~ arduino_ser (final (send_cmd_to_arduino host_flaky "forward") connected)
       = None.
Proof.
  split; [vm_compute; reflexivity|].
  split; [vm_compute; reflexivity|].
  intros H. vm_compute in H. discriminate H.
Qed.

Lemma write_failure_keeps_handle_witness :
  arduino_ser (final (send_cmd_to_arduino host_flaky "forward") connected)
  = Some usb0
  /\ writes (emitted (send_cmd_to_arduino host_flaky "left")
               (final (init_arduino host_flaky)
                  (final (send_cmd_to_arduino host_flaky "forward") connected)))
     = [("/dev/ttyUSB0", ("left" ++ newline)%string)].
Proof.
  destruct (write_failure_keeps_handle host_flaky connected usb0 "forward"
              eq_refl eq_refl) as [H1 H2].
  split.
  - unfold final. rewrite H1. reflexivity.
  - destruct H2 as [_ H2].
    destruct (H2 (final (send_cmd_to_arduino host_flaky "forward") connected)
                "/dev/ttyUSB0" [] "left" eq_refl) as (_ & _ & Hw & _).
    + intros k Hk. reflexivity.
    + exact Hw.
Defined.

(** The scenario of C5: one [forward] envelope on an open link. *)
Lemma only_listed_words_reach_device_witness :
  writes (emitted (handle_teleop_message host_ok Json.loads
                     (message_of (Json.text "{'cmd':'forward','ts':1}")))
            connected)
  = [("/dev/ttyUSB0", ("forward" ++ newline)%string)]
  /\ only_logs (emitted (handle_teleop_message host_ok Json.loads
                           (message_of (Json.text "{'cmd':'stop','ts':1}")))
                  connected) = true.
Proof.
  split.
  - destruct (only_listed_words_reach_device host_ok Json.loads
                (message_of (Json.text "{'cmd':'forward','ts':1}")) connected)
      as (_ & Hw & _).
    rewrite Hw. reflexivity.
  - destruct (only_listed_words_reach_device host_ok Json.loads
                (message_of (Json.text "{'cmd':'stop','ts':1}")) connected)
      as (_ & _ & _ & _ & Hl).
    apply Hl. reflexivity.
Defined.

Example forward_on_open_link :
  emitted (handle_teleop_message host_ok Json.loads
             (message_of (Json.text "{'cmd':'forward','ts':1}"))) connected
  = [EvPrint (LogReceived (VStr "forward") (VInt 1) (VStr "operator"));
     EvWrite "/dev/ttyUSB0" ("forward" ++ newline) true;
     EvPrint (LogSent "forward");
     EvInWaiting "/dev/ttyUSB0" true].
Proof. vm_compute. reflexivity. Qed.

End BakWitnesses.

(** ** The joint jog node: proofs *)

Section GzbFacts.
Import Gzb GzbObs.

Variable h : host.
Variable json_loads : string -> option value.

Lemma publish_target_run (s : state) (node : JointJogNode) :
  ros_node s = Some node ->
  publish_target h s
  = (if publish_error h (tick s) then Raise RCLError else Ret tt,
     {| ros_node := Some node; tick := S (tick s);
        trace := trace s ++
          [EvPublish {| joint_names := JOINT_NAMES;
                        points := [{| positions := q node;
                                      time_from_start := TFS |}] |}
             (negb (publish_error h (tick s)))] |}).
Proof.
  intros Hn. unfold publish_target, bind, self_q, publish. rewrite Hn.
  cbn [ros_node tick trace]. rewrite Hn.
  destruct (publish_error h (tick s)); reflexivity.
Qed.

(** What the table says of its own keys. *)
Lemma keymap_entry (k : string) (idx : nat) (sgn : Z) :
  In (k, (idx, sgn)) KEYMAP ->
  strip (lower k) = k
  /\ truthy (VStr k) = true
  /\ in_set k STOP_KEYS = false
  /\ keymap_get KEYMAP k = Some (idx, sgn)
  /\ idx < length JOINT_NAMES
  /\ (sgn = 1%Z /\ (float_of_int sgn * STEP_RAD)%float = STEP_RAD
      \/ sgn = (-1)%Z /\ (float_of_int sgn * STEP_RAD)%float = (- STEP_RAD)%float).
Proof.
  unfold KEYMAP. cbn [In]. intros H.
  repeat (destruct H as [H|H];
          [injection H as <- <- <-; vm_compute;
           repeat split; try lia; (left + right); split; reflexivity|]).
  contradiction.
Qed.

(** A key of the table adds its signed step to its joint, logs the new
    target and publishes. *)
Lemma handle_key_jog (k : string) (idx : nat) (sgn : Z) (s : state)
    (qs : list float) (old : float) :
  In (k, (idx, sgn)) KEYMAP ->
  ros_node s = Some {| q := qs |} ->
  qs !! idx = Some old ->
  handle_key h (VStr k) s
  = publish_target h
      {| ros_node :=
           Some {| q := <[idx := (old + float_of_int sgn * STEP_RAD)%float]> qs |};
         tick := tick s;
         trace := trace s ++
           [EvPrint (LogKey k idx (old + float_of_int sgn * STEP_RAD)%float)] |}.
Proof.
  intros Hin Hn Hold.
  destruct (keymap_entry k idx sgn Hin) as (Hk & Ht & Hstop & Hget & _).
  unfold handle_key. rewrite Ht. cbn [negb]. rewrite Hk, Hstop, Hget.
  unfold bind at 1. unfold self_q. rewrite Hn. cbn [q]. rewrite Hold.
  unfold bind, set_self_q, print, emit. cbn [ros_node tick trace].
  reflexivity.
Qed.

(** A stop key publishes the targets as they are. *)
Lemma handle_key_stop (key : string) (s : state) :
  truthy (VStr key) = true ->
  in_set (strip (lower key)) STOP_KEYS = true ->
  handle_key h (VStr key) s
  = publish_target h
      {| ros_node := ros_node s; tick := tick s;
         trace := trace s ++ [EvPrint (LogStop (strip (lower key)))] |}.
Proof.
  intros Ht Hs. unfold handle_key. rewrite Ht. cbn [negb]. rewrite Hs.
  unfold bind, print, emit. reflexivity.
Qed.

(** Any other key changes nothing: the call returns or raises at once. *)
Lemma handle_key_other (key : value) (s : state) :
  jog_or_stop key = false ->
  handle_key h key s = (Ret tt, s)
  \/ handle_key h key s = (Raise AttributeError, s).
Proof.
  intros Hj. unfold handle_key.
  destruct (truthy key) eqn:Ht; cbn [negb]; [|left; reflexivity].
  destruct key as [| b | n | x | str | xs | items];
    try (right; reflexivity).
  cbn [jog_or_stop] in Hj. apply orb_false_elim in Hj. destruct Hj as [H1 H2].
  rewrite H1. destruct (keymap_get KEYMAP (strip (lower str)));
    [discriminate|left; reflexivity].
Qed.

(** Whatever the key, the node stays in place and its vector keeps its
    length. *)
Lemma handle_key_node (key : value) (s : state) (node : JointJogNode) :
  ros_node s = Some node ->
  exists node',
    ros_node (final (handle_key h key) s) = Some node'
    /\ length (q node') = length (q node).
Proof.
  intros Hn.
  destruct (jog_or_stop key) eqn:Hj.
  - destruct key as [| b | n | x | str | xs | items]; try discriminate.
    cbn [jog_or_stop] in Hj.
    unfold final, handle_key.
    destruct (truthy (VStr str)) eqn:Ht; cbn [negb];
      [|exists node; split; [exact Hn|reflexivity]].
    destruct (in_set (strip (lower str)) STOP_KEYS) eqn:Hs.
    + unfold bind, print, emit.
      rewrite (publish_target_run _ node) by exact Hn.
      exists node. split; reflexivity.
    + destruct (keymap_get KEYMAP (strip (lower str))) as [[idx sgn]|] eqn:Hg;
        [|exists node; split; [exact Hn|reflexivity]].
      unfold bind at 1. unfold self_q. rewrite Hn.
      destruct (q node !! idx) as [old|] eqn:Hold;
        [|exists node; split; [exact Hn|reflexivity]].
      unfold bind, set_self_q, print, emit. cbn [ros_node tick trace].
      erewrite publish_target_run by reflexivity. cbn [snd].
      eexists. split; [reflexivity|]. cbn [q]. apply length_insert.
  - exists node. unfold final.
    destruct (handle_key_other key s Hj) as [-> | ->]; split;
      (exact Hn || reflexivity).
Qed.

(** The handler, case by case on what the message carries. *)
Lemma handler_cases (m : pubsub_message) (s : state) :
  (exists ls, handle_teleop_message h json_loads m s = (Ret tt, logged s ls)
              /\ jog_or_stop (key_field json_loads m) = false
              \/ handle_teleop_message h json_loads m s = (Ret tt, logged s ls)
                 /\ ros_node s = None)
  \/ exists ts s1,
       s1 = logged s [LogReceived (key_field json_loads m) ts
                        (field m "senderId")]
       /\ ros_node s <> None
       /\ (handle_teleop_message h json_loads m s
           = (Ret tt, final (handle_key h (key_field json_loads m)) s1)
           \/ exists e,
                handle_teleop_message h json_loads m s
                = (Ret tt,
                   logged (final (handle_key h (key_field json_loads m)) s1)
                     [LogHandlerError e m])).
Proof.
  unfold key_field.
  unfold handle_teleop_message, try_except, bind, loads, get, print, emit,
    raise, ret.
  destruct (field m "message") as [| b | n | x | p | xs | items] eqn:Ef;
    cbn [truthy negb].
  1: { left. exists [LogNoMessage m]. left. split; reflexivity. }
  1: { left. destruct b; cbn [negb]; [exists [LogHandlerError TypeError m]
         | exists [LogNoMessage m]]; left; split; reflexivity. }
  1: { left. destruct (n =? 0)%Z; cbn [negb]; [exists [LogNoMessage m]
         | exists [LogHandlerError TypeError m]]; left; split; reflexivity. }
  1: { left. destruct (PrimFloat.eqb x 0); cbn [negb]; [exists [LogNoMessage m]
         | exists [LogHandlerError TypeError m]]; left; split; reflexivity. }
  2: { left. destruct xs; [exists [LogNoMessage m]
         | exists [LogHandlerError TypeError m]]; left; split; reflexivity. }
  2: { left. destruct items; [exists [LogNoMessage m]
         | exists [LogHandlerError TypeError m]]; left; split; reflexivity. }
  destruct (String.eqb p EmptyString); cbn [negb].
  { left. exists [LogNoMessage m]. left. split; reflexivity. }
  destruct (json_loads p) as [data|].
  2: { left. exists [LogHandlerError JSONDecodeError m]. left.
       split; reflexivity. }
  destruct data as [| | | | | | items];
    try (left; exists [LogHandlerError AttributeError m]; left;
         split; reflexivity).
  cbn [ros_node tick trace].
  destruct (ros_node s) as [node|] eqn:Hn.
  - right. exists (dict_get items "ts"). eexists. split; [reflexivity|].
    split; [discriminate|].
    unfold logged at 1 3. cbn [map]. rewrite Hn.
    unfold final.
    destruct (handle_key h (dict_get items "key") _) as [[[]|e] s'].
    + left. reflexivity.
    + right. exists e. reflexivity.
  - left. eexists [LogReceived _ _ _; LogNotReady _]. right.
    split; [|reflexivity]. unfold logged. cbn [ros_node tick trace map].
    rewrite Hn. trace_norm. reflexivity.
Qed.

Lemma gzb_handler_returns (m : pubsub_message) (s : state) :
  result (handle_teleop_message h json_loads m) s = Ret tt.
Proof.
  unfold result.
  destruct (handler_cases m s)
    as [(ls & [[-> _]|[-> _]]) | (ts & s1 & _ & _ & [-> | (e & ->)])];
    reflexivity.
Qed.

Lemma handler_node (m : pubsub_message) (s : state) (node : JointJogNode) :
  ros_node s = Some node ->
  exists node',
    ros_node (final (handle_teleop_message h json_loads m) s) = Some node'
    /\ length (q node') = length (q node).
Proof.
  intros Hn. unfold final at 1.
  destruct (handler_cases m s)
    as [(ls & [[-> _]|[-> _]]) | (ts & s1 & Hs1 & _ & [-> | (e & ->)])];
    cbn [snd logged ros_node];
    try (exists node; split; [exact Hn|reflexivity]).
  - apply handle_key_node. subst s1. exact Hn.
  - apply handle_key_node. subst s1. exact Hn.
Qed.

Lemma deliver_node (msgs : list pubsub_message) (s : state)
    (node : JointJogNode) :
  ros_node s = Some node ->
  exists node',
    ros_node (deliver h json_loads msgs s) = Some node'
    /\ length (q node') = length (q node).
Proof.
  revert s node. induction msgs as [|m msgs IH]; intros s node Hn.
  - exists node. split; [exact Hn|reflexivity].
  - change (deliver h json_loads (m :: msgs) s)
      with (deliver h json_loads msgs
              (final (handle_teleop_message h json_loads m) s)).
    destruct (handler_node m s node Hn) as (node1 & H1 & L1).
    destruct (IH _ node1 H1) as (node2 & H2 & L2).
    exists node2. split; [exact H2|]. rewrite L2. exact L1.
Qed.

(** A message the node does not act on is logged and dropped. *)
Lemma handler_unrecognized (m : pubsub_message) (s : state) :
  jog_or_stop (key_field json_loads m) = false ->
  exists ls, handle_teleop_message h json_loads m s = (Ret tt, logged s ls).
Proof.
  intros Hj.
  destruct (handler_cases m s)
    as [(ls & [[-> _]|[-> _]]) | (ts & s1 & Hs1 & _ & H)];
    try (exists ls; reflexivity).
  unfold final in H.
  destruct (handle_key_other (key_field json_loads m) s1 Hj) as [Hk|Hk];
    rewrite Hk in H; cbn [snd] in H; subst s1.
  - destruct H as [-> | (e & ->)].
    + eexists [_]. reflexivity.
    + eexists [_; _]. unfold logged. cbn [ros_node tick trace map].
      trace_norm. reflexivity.
  - destruct H as [-> | (e & ->)].
    + eexists [_]. reflexivity.
    + eexists [_; _]. unfold logged. cbn [ros_node tick trace map].
      trace_norm. reflexivity.
Qed.

Lemma gzb_not_json (m : pubsub_message) (s : state) (p : string) :
  field m "message" = VStr p -> p <> EmptyString -> json_loads p = None ->
  handle_teleop_message h json_loads m s
  = (Ret tt, logged s [LogHandlerError JSONDecodeError m]).
Proof.
  intros Hf Hp Hj. apply String.eqb_neq in Hp.
  unfold handle_teleop_message, try_except, bind, loads.
  rewrite Hf. cbn [truthy]. rewrite Hp. cbn [negb]. rewrite Hj.
  reflexivity.
Qed.

(** C6: for a key of the jog table, the call replaces the position of the
    joint the table maps it to by that position plus sign times the step,
    which is the step or its opposite, and every other position and the
    length of the vector are as before. *)
Theorem jog_changes_one_joint (k : string) (idx : nat) (sgn : Z) (s : state)
    (qs : list float) :
  In (k, (idx, sgn)) KEYMAP ->
  ros_node s = Some {| q := qs |} ->
  length qs = length JOINT_NAMES ->
  exists (old : float) (qs' : list float),
    qs !! idx = Some old
    /\ ros_node (final (handle_key h (VStr k)) s) = Some {| q := qs' |}
    /\ qs' !! idx = Some (old + float_of_int sgn * STEP_RAD)%float
    /\ (forall j : nat, j <> idx -> qs' !! j = qs !! j)
    /\ length qs' = length qs
    /\ (sgn = 1%Z /\ (float_of_int sgn * STEP_RAD)%float = STEP_RAD
        \/ sgn = (-1)%Z
           /\ (float_of_int sgn * STEP_RAD)%float = (- STEP_RAD)%float).
Proof.
  intros Hin Hn Hlen.
  destruct (keymap_entry k idx sgn Hin) as (_ & _ & _ & _ & Hidx & Hsgn).
  rewrite <- Hlen in Hidx.
  destruct (lookup_lt_is_Some_2 qs idx Hidx) as [old Hold].
  exists old, (<[idx := (old + float_of_int sgn * STEP_RAD)%float]> qs).
  split; [exact Hold|]. split.
  { unfold final. rewrite (handle_key_jog k idx sgn s qs old Hin Hn Hold).
    erewrite publish_target_run by reflexivity. reflexivity. }
  split; [apply list_lookup_insert_eq; exact Hidx|].
  split; [intros j Hj; apply list_lookup_insert_ne; congruence|].
  split; [apply length_insert|exact Hsgn].
Qed.

Lemma jog_final (k : string) (idx : nat) (sgn : Z) (s : state)
    (qs : list float) (old : float) :
  In (k, (idx, sgn)) KEYMAP ->
  ros_node s = Some {| q := qs |} ->
  qs !! idx = Some old ->
  final (handle_key h (VStr k)) s
  = {| ros_node :=
         Some {| q := <[idx := (old + float_of_int sgn * STEP_RAD)%float]> qs |};
       tick := S (tick s);
       trace := trace s ++
         [EvPrint (LogKey k idx (old + float_of_int sgn * STEP_RAD)%float);
          EvPublish
            {| joint_names := JOINT_NAMES;
               points :=
                 [{| positions :=
                       <[idx := (old + float_of_int sgn * STEP_RAD)%float]> qs;
                     time_from_start := TFS |}] |}
            (negb (publish_error h (tick s)))] |}.
Proof.
  intros Hin Hn Hold. unfold final.
  rewrite (handle_key_jog k idx sgn s qs old Hin Hn Hold).
  erewrite publish_target_run by reflexivity.
  cbn [snd tick trace q]. trace_norm. reflexivity.
Qed.

(** The node after a message whose key is a key of the table. *)
Lemma handler_jog (m : pubsub_message) (k : string) (idx : nat) (sgn : Z)
    (s : state) (qs : list float) (old : float) :
  key_field json_loads m = VStr k ->
  In (k, (idx, sgn)) KEYMAP ->
  ros_node s = Some {| q := qs |} ->
  qs !! idx = Some old ->
  ros_node (final (handle_teleop_message h json_loads m) s)
  = Some {| q := <[idx := (old + float_of_int sgn * STEP_RAD)%float]> qs |}.
Proof.
  intros Hk Hin Hn Hold.
  destruct (keymap_entry k idx sgn Hin) as (Hnorm & _ & _ & Hget & _).
  assert (Hj : jog_or_stop (key_field json_loads m) = true).
  { rewrite Hk. cbn [jog_or_stop]. rewrite Hnorm, Hget. apply orb_true_r. }
  unfold final at 1.
  destruct (handler_cases m s)
    as [(ls & [[_ Hf]|[_ Hf]]) | (ts & s1 & Hs1 & _ & [-> | (e & ->)])];
    try congruence; rewrite Hk; cbn [snd logged ros_node];
    rewrite (jog_final k idx sgn s1 qs old Hin) by (subst s1; assumption);
    reflexivity.
Qed.

Lemma isspace_lower_char (c : ascii) :
  isspace c = true -> lower_char c = c.
Proof.
  destruct c as [[] [] [] [] [] [] [] []]; vm_compute; intros H;
    (reflexivity || discriminate H).
Qed.

Lemma lower_blank (s : string) : blank s = true -> lower s = s.
Proof.
  induction s as [|c s IH]; cbn; [reflexivity|].
  intros H. apply andb_prop in H. destruct H as [Hc Hs].
  rewrite (isspace_lower_char c Hc), (IH Hs). reflexivity.
Qed.

Lemma lower_app (a b : string) :
  lower (a ++ b) = (lower a ++ lower b)%string.
Proof. induction a as [|c a IH]; cbn; [reflexivity|]. rewrite IH. reflexivity. Qed.

Lemma lstrip_blank_app (pre s : string) :
  blank pre = true -> lstrip (pre ++ s) = lstrip s.
Proof.
  induction pre as [|c pre IH]; cbn; [reflexivity|].
  intros H. apply andb_prop in H. destruct H as [Hc Hs].
  rewrite Hc. exact (IH Hs).
Qed.

Lemma rstrip_blank (s : string) : blank s = true -> rstrip s = EmptyString.
Proof.
  induction s as [|c s IH]; cbn; [reflexivity|].
  intros H. apply andb_prop in H. destruct H as [Hc Hs].
  rewrite (IH Hs), Hc. reflexivity.
Qed.

(** One character that is not whitespace, with whitespace around it,
    strips to that character. *)
Lemma strip_padded (c : ascii) (pre post : string) :
  isspace c = false -> blank pre = true -> blank post = true ->
  strip (pre ++ String c EmptyString ++ post) = String c EmptyString.
Proof.
  intros Hc Hpre Hpost. unfold strip.
  rewrite (lstrip_blank_app _ _ Hpre). cbn. rewrite Hc. cbn.
  rewrite (rstrip_blank _ Hpost), Hc. reflexivity.
Qed.

(** A key of the table is one lower-case letter. *)
Lemma keymap_key_shape (k : string) (e : nat * Z) :
  In (k, e) KEYMAP ->
  exists c, k = String c EmptyString /\ isspace c = false
            /\ lower_char c = c /\ lower_char (upper_char c) = c.
Proof.
  unfold KEYMAP. cbn [In]. intros H.
  repeat (destruct H as [H|H];
          [injection H as <- <-; eexists; repeat split; reflexivity|]).
  contradiction.
Qed.

Lemma variant_normal_form (k v : string) (e : nat * Z) :
  In (k, e) KEYMAP -> variant_of k v ->
  strip (lower v) = k /\ truthy (VStr v) = true.
Proof.
  intros Hin (pre & post & Hpre & Hpost & Hv).
  destruct (keymap_key_shape k e Hin) as (c & -> & Hc & Hl & Hu).
  assert (Hne : forall d, truthy (VStr (pre ++ String d EmptyString ++ post))
                          = true).
  { intros d. destruct pre; reflexivity. }
  destruct Hv as [-> | ->]; (split; [|apply Hne]).
  - rewrite !lower_app, (lower_blank _ Hpre), (lower_blank _ Hpost).
    cbn [lower]. rewrite Hl. apply strip_padded; assumption.
  - rewrite !lower_app, (lower_blank _ Hpre), (lower_blank _ Hpost).
    cbn [lower upper]. rewrite Hu. apply strip_padded; assumption.
Qed.

(** C10: a key of the jog table written in upper case or with whitespace
    around it is lowered and stripped to the key itself, looked up in the
    table and dispatched as the key is: the call gives what the call with
    the key gives, and on a node that holds the joint it adds the signed
    step to the joint the table maps the key to, logs the new target under
    the key and publishes the new vector. *)
Theorem variant_handled_as_key (k v : string) (idx : nat) (sgn : Z)
    (s : state) :
  In (k, (idx, sgn)) KEYMAP ->
  variant_of k v ->
  strip (lower v) = k
  /\ keymap_get KEYMAP (strip (lower v)) = Some (idx, sgn)
  /\ handle_key h (VStr v) s = handle_key h (VStr k) s
  /\ forall (qs : list float) (old : float),
       ros_node s = Some {| q := qs |} ->
       qs !! idx = Some old ->
       handle_key h (VStr v) s
       = (if publish_error h (tick s) then Raise RCLError else Ret tt,
          {| ros_node :=
               Some {| q := <[idx := (old + float_of_int sgn * STEP_RAD)%float]>
                              qs |};
             tick := S (tick s);
             trace := trace s ++
               [EvPrint (LogKey k idx
                           (old + float_of_int sgn * STEP_RAD)%float);
                EvPublish
                  {| joint_names := JOINT_NAMES;
                     points :=
                       [{| positions :=
                             <[idx := (old + float_of_int sgn * STEP_RAD)%float]>
                               qs;
                           time_from_start := TFS |}] |}
                  (negb (publish_error h (tick s)))] |}).
Proof.
  intros Hin Hv.
  destruct (variant_normal_form k v _ Hin Hv) as [Hn Ht].
  destruct (keymap_entry k idx sgn Hin) as (Hk & Htk & _ & Hget & _).
  assert (He : handle_key h (VStr v) s = handle_key h (VStr k) s).
  { unfold handle_key. rewrite Ht, Htk, Hn, Hk. reflexivity. }
  split; [exact Hn|]. split; [rewrite Hn; exact Hget|]. split; [exact He|].
  intros qs old Hnode Hold.
  rewrite He, (handle_key_jog k idx sgn s qs old Hin Hnode Hold).
  erewrite publish_target_run by reflexivity.
  cbn [tick trace q]. rewrite <- app_assoc. reflexivity.
Qed.

(** C9: the vector has seven entries at construction and after any
    sequence of messages or keys; a jog writes the sum of the old position
    and the signed step whatever the old position is, with no bound
    applied; a stop key leaves every position as it is. *)
Theorem joint_vector_length_fixed :
  length (q JointJogNode_init) = 7
  /\ (forall msgs : list pubsub_message,
        exists node,
          ros_node (deliver h json_loads msgs started) = Some node
          /\ length (q node) = 7)
  /\ (forall (key : value) (s : state) (node : JointJogNode),
        ros_node s = Some node ->
        exists node',
          ros_node (final (handle_key h key) s) = Some node'
          /\ length (q node') = length (q node))
  /\ (forall (k : string) (idx : nat) (sgn : Z) (s : state)
             (qs : list float) (old : float),
        In (k, (idx, sgn)) KEYMAP ->
        ros_node s = Some {| q := qs |} ->
        qs !! idx = Some old ->
        ros_node (final (handle_key h (VStr k)) s)
        = Some {| q := <[idx := (old + float_of_int sgn * STEP_RAD)%float]> qs |})
  /\ (forall (s : state) (node : JointJogNode),
        ros_node s = Some node ->
        ros_node (final (handle_key h (VStr "x")) s) = Some node).
Proof.
  split; [reflexivity|]. split.
  { intros msgs.
    destruct (deliver_node msgs started JointJogNode_init eq_refl)
      as (node & Hn & Hl).
    exists node. split; [exact Hn|]. rewrite Hl. reflexivity. }
  split; [exact handle_key_node|]. split.
  { intros k idx sgn s qs old Hin Hn Hold.
    rewrite (jog_final k idx sgn s qs old Hin Hn Hold). reflexivity. }
  intros s node Hn. unfold final.
  rewrite handle_key_stop by reflexivity.
  erewrite publish_target_run by exact Hn. reflexivity.
Qed.

End GzbFacts.

Section GzbScenarios.
Import Gzb GzbObs.

Variable h : host.

(** C7: from the all-zero vector, the keys q, q, a leave joint 0 at the
    step and the other six joints at zero, both as three calls of the key
    handler and as three messages through the callback. *)
Theorem q_q_a_nets_one_step :
  ros_node (press_all h ["q"; "q"; "a"] started)
  = Some {| q := [STEP_RAD; 0; 0; 0; 0; 0; 0]%float |}
  /\ ros_node
       (deliver h Json.loads
          [message_of (Json.text "{'key':'q','ts':1}");
           message_of (Json.text "{'key':'q','ts':2}");
           message_of (Json.text "{'key':'a','ts':3}")] started)
     = Some {| q := [STEP_RAD; 0; 0; 0; 0; 0; 0]%float |}.
Proof.
  split.
  - unfold press_all. cbn [fold_left].
    rewrite (jog_final h "q" 0 1 started (replicate 7 0%float) 0%float)
      by (reflexivity || (left; reflexivity)).
    erewrite (jog_final h "q" 0 1)
      by (reflexivity || (left; reflexivity)).
    erewrite (jog_final h "a" 0 (-1))
      by (reflexivity || (right; left; reflexivity)).
    cbn [ros_node]. vm_compute. reflexivity.
  - unfold deliver. cbn [fold_left].
    set (s1 := final (handle_teleop_message h Json.loads
                        (message_of (Json.text "{'key':'q','ts':1}"))) started).
    set (s2 := final (handle_teleop_message h Json.loads
                        (message_of (Json.text "{'key':'q','ts':2}"))) s1).
    assert (H1 : ros_node s1 = Some {| q := [STEP_RAD; 0; 0; 0; 0; 0; 0]%float |}).
    { unfold s1.
      rewrite (handler_jog h Json.loads _ "q" 0 1 started
                 (replicate 7 0%float) 0%float)
        by (reflexivity || (left; reflexivity)).
      vm_compute. reflexivity. }
    assert (H2 : ros_node s2
                 = Some {| q := [STEP_RAD + STEP_RAD; 0; 0; 0; 0; 0; 0]%float |}).
    { unfold s2.
      rewrite (handler_jog h Json.loads _ "q" 0 1 s1 _ STEP_RAD)
        by (reflexivity || exact H1 || (left; reflexivity)).
      vm_compute. reflexivity. }
    rewrite (handler_jog h Json.loads _ "a" 0 (-1) s2 _
               (STEP_RAD + STEP_RAD)%float)
      by (reflexivity || exact H2 || (right; left; reflexivity)).
    vm_compute. reflexivity.
Qed.

(** C4 at the space key: the key is stripped to the empty string before it
    is looked up, so it is neither a stop key nor a jog key; the call
    returns with the state untouched and the message leaves only its
    received line: nothing is published. *)
Theorem space_key_publishes_nothing (s : state) :
  strip (lower " ") = EmptyString
  /\ handle_key h (VStr " ") s = (Ret tt, s)
  /\ emitted (handle_teleop_message h Json.loads
                (message_of (Json.text "{'key':' ','ts':1}"))) started
     = [EvPrint (LogReceived (VStr " ") (VInt 1) (VStr "operator"))]
  /\ published
       (emitted (handle_teleop_message h Json.loads
                   (message_of (Json.text "{'key':' ','ts':1}"))) started)
     = [].
Proof.
  split; [reflexivity|]. split; [reflexivity|].
  split; vm_compute; reflexivity.
Qed.

(** The other stop key does hold: x publishes the targets as they are. *)
Lemma x_key_holds (s : state) (node : JointJogNode) :
  ros_node s = Some node ->
  ros_node (final (handle_key h (VStr "x")) s) = Some node
  /\ emitted (handle_key h (VStr "x")) s
     = [EvPrint (LogStop "x");
        EvPublish {| joint_names := JOINT_NAMES;
                     points := [{| positions := q node;
                                   time_from_start := TFS |}] |}
          (negb (publish_error h (tick s)))].
Proof.
  intros Hn. unfold emitted, final.
  rewrite handle_key_stop by reflexivity.
  erewrite publish_target_run by exact Hn.
  cbn [snd ros_node tick trace]. rewrite <- app_assoc, drop_app_length.
  split; reflexivity.
Qed.

Lemma jog_changes_one_joint_witness :
  In ("w", (1, 1%Z)) KEYMAP
  /\ ros_node started = Some {| q := replicate 7 0%float |}
  /\ exists (old : float) (qs' : list float),
       replicate 7 0%float !! 1 = Some old
       /\ ros_node (final (handle_key host_ok (VStr "w")) started)
          = Some {| q := qs' |}
       /\ qs' !! 1 = Some (old + float_of_int 1 * STEP_RAD)%float.
Proof.
  assert (Hin : In ("w", (1, 1%Z)) KEYMAP) by (right; right; left; reflexivity).
  split; [exact Hin|]. split; [reflexivity|].
  destruct (jog_changes_one_joint host_ok "w" 1 1 started
              (replicate 7 0%float) Hin eq_refl eq_refl)
    as (old & qs' & H1 & H2 & H3 & _).
  exists old, qs'. split; [exact H1|]. split; [exact H2|exact H3].
Defined.

(** The jog scenario: one w envelope publishes joint 1 at the step and
    all other joints at zero. *)
Example w_publishes_joint_1 :
  published
    (emitted (handle_teleop_message host_ok Json.loads
                (message_of (Json.text "{'key':'w','ts':2}"))) started)
  = [[0; STEP_RAD; 0; 0; 0; 0; 0]%float].
Proof. vm_compute. reflexivity. Qed.

Lemma variant_handled_as_key_witness :
  handle_key host_ok (VStr " Q ") started
  = (Ret tt,
     {| ros_node := Some {| q := [STEP_RAD; 0; 0; 0; 0; 0; 0]%float |};
        tick := 1;
        trace :=
          [EvPrint (LogKey "q" 0 STEP_RAD);
           EvPublish
             {| joint_names := JOINT_NAMES;
                points := [{| positions := [STEP_RAD; 0; 0; 0; 0; 0; 0]%float;
                              time_from_start := TFS |}] |} true] |}).
Proof.
  assert (Hv : variant_of "q" " Q ").
  { exists " ", " ". split; [reflexivity|]. split; [reflexivity|].
    right. reflexivity. }
  destruct (variant_handled_as_key host_ok "q" " Q " 0 1 started
              (or_introl eq_refl) Hv) as (_ & _ & _ & H).
  rewrite (H (replicate 7 0%float) 0%float eq_refl eq_refl).
  vm_compute. reflexivity.
Defined.

Lemma joint_vector_length_fixed_witness :
  ros_node (final (handle_key host_ok (VStr "q")) far_out)
  = Some {| q := [1000 + STEP_RAD; 0; 0; 0; 0; 0; 0]%float |}.
Proof.
  destruct (joint_vector_length_fixed host_ok Json.loads)
    as (_ & _ & _ & Hjog & _).
  rewrite (Hjog "q" 0 1%Z far_out [1000; 0; 0; 0; 0; 0; 0]%float 1000%float
             (or_introl eq_refl) eq_refl eq_refl).
  vm_compute. reflexivity.
Defined.

(** Two hundred presses of q carry joint 0 past a full turn. *)
Example two_hundred_steps_pass_a_turn :
  match ros_node (press_all host_ok (repeat "q" 200) started) with
  | Some node =>
      match q node !! 0 with
      | Some x => PrimFloat.ltb (2 * pi) x
      | None => false
      end
  | None => false
  end = true.
Proof. vm_compute. reflexivity. Qed.

(** A publisher that raises is caught by the callback: the joint has
    moved, the error is logged and the callback returns. *)
Example publisher_down_is_caught :
  handle_teleop_message host_down Json.loads
    (message_of (Json.text "{'key':'q','ts':1}")) started
  = (Ret tt,
     {| ros_node := Some {| q := [STEP_RAD; 0; 0; 0; 0; 0; 0]%float |};
        tick := 1;
        trace :=
          [EvPrint (LogReceived (VStr "q") (VInt 1) (VStr "operator"));
           EvPrint (LogKey "q" 0 STEP_RAD);
           EvPublish
             {| joint_names := JOINT_NAMES;
                points := [{| positions := [STEP_RAD; 0; 0; 0; 0; 0; 0]%float;
                              time_from_start := TFS |}] |} false;
           EvPrint (LogHandlerError RCLError
                      (message_of (Json.text "{'key':'q','ts':1}")))] |}).
Proof. vm_compute. reflexivity. Qed.

End GzbScenarios.

(** ** Both handlers *)

Section Handlers.

Variable hb : Bak.host.
Variable hg : Gzb.host.
Variable json_loads : string -> option value.

(** With the [print] of [Bak] and [Gzb], which takes every line: whatever
    the message, the decoder and the state, both handlers return normally.
    A payload that is not JSON is logged by the except branch and changes
    nothing else; a message without a listed [cmd] (serial bridge) or
    without a jog or stop key (joint jog) leaves only log lines: no call
    on a device or on the publisher, no change of the link or of the
    joints. *)
Theorem handlers_never_raise (mb : Bak.pubsub_message)
    (mg : Gzb.pubsub_message) (sb : Bak.state) (sg : Gzb.state) :
  result (Bak.handle_teleop_message hb json_loads mb) sb = Ret tt
  /\ result (Gzb.handle_teleop_message hg json_loads mg) sg = Ret tt
  /\ (forall p : string,
        Bak.field mb "message" = VStr p -> p <> EmptyString ->
        json_loads p = None ->
        Bak.handle_teleop_message hb json_loads mb sb
        = (Ret tt,
           BakObs.logged sb [Bak.LogHandlerError JSONDecodeError mb]))
  /\ (forall p : string,
        Gzb.field mg "message" = VStr p -> p <> EmptyString ->
        json_loads p = None ->
        Gzb.handle_teleop_message hg json_loads mg sg
        = (Ret tt,
           GzbObs.logged sg [Gzb.LogHandlerError JSONDecodeError mg]))
  /\ (in_strs (BakObs.cmd_field json_loads mb) Bak.TELEOP_COMMANDS = false ->
      exists ls,
        Bak.handle_teleop_message hb json_loads mb sb
        = (Ret tt, BakObs.logged sb ls))
  /\ (GzbObs.jog_or_stop (GzbObs.key_field json_loads mg) = false ->
      exists ls,
        Gzb.handle_teleop_message hg json_loads mg sg
        = (Ret tt, GzbObs.logged sg ls)).
Proof.
  split; [apply handle_returns|].
  split; [apply gzb_handler_returns|].
  split; [intros p; apply bak_not_json|].
  split; [intros p; apply gzb_not_json|].
  split; [apply handle_unlisted|apply handler_unrecognized].
Qed.

End Handlers.

Lemma handlers_never_raise_witness :
  Bak.handle_teleop_message BakObs.host_ok Json.loads
    (BakObs.message_of "forward!") BakObs.connected
  = (Ret tt,
     BakObs.logged BakObs.connected
       [Bak.LogHandlerError JSONDecodeError (BakObs.message_of "forward!")])
  /\ exists ls,
       Gzb.handle_teleop_message GzbObs.host_ok Json.loads
         (GzbObs.message_of "[1,2]") Gzb.started
       = (Ret tt, GzbObs.logged Gzb.started ls).
Proof.
  destruct (handlers_never_raise BakObs.host_ok GzbObs.host_ok Json.loads
              (BakObs.message_of "forward!") (GzbObs.message_of "[1,2]")
              BakObs.connected Gzb.started)
    as (_ & _ & Hb & _ & _ & Hg).
  split.
  - apply (Hb "forward!"); [reflexivity|discriminate|reflexivity].
  - exact (Hg eq_refl).
Defined.

(** ** Discovery and connection of the serial bridge *)

Section BakDiscovery.
Import Bak BakObs BakMore.

Variable h : host.

Lemma probed_app (a b : list event) : probed (a ++ b) = probed a ++ probed b.
Proof.
  induction a as [|e a IH]; [reflexivity|].
  destruct e as [| | | | | | | |[]]; cbn; rewrite ?IH; reflexivity.
Qed.

Lemma failed_app (a b : list event) : failed (a ++ b) = failed a ++ failed b.
Proof.
  induction a as [|e a IH]; [reflexivity|].
  destruct e as [| | | | | | | |[]]; cbn; rewrite ?IH; reflexivity.
Qed.

Lemma probe_candidates_cons (p : string) (rest : list string) :
  probe_candidates h (p :: rest)
  = (do found <-
       try_except
         (print (LogProbing p) >>
          do s <- serial_Serial h p 115200;
          sleep 2000 >>
          serial_write h s ("ping" ++ newline) >>
          sleep 100 >>
          serial_read h s 10 >>
          serial_close h s >>
          print (LogLooksValid p) >>
          ret true)
         (fun e => print (LogProbeFailed p e) >> ret false);
     if (found : bool) then ret (Some p) else probe_candidates h rest).
Proof. reflexivity. Qed.

(** One turn of the loop: the candidate is returned, or given up and the
    loop goes on; the global is not read and not touched. *)
Lemma probe_step (p : string) (rest : list string) (t : nat)
    (tr : list event) :
  exists evs t',
    probed evs = [p]
    /\ ((forall a,
           probe_candidates h (p :: rest)
             {| arduino_ser := a; tick := t; trace := tr |}
           = (Ret (Some p),
              {| arduino_ser := a; tick := t'; trace := tr ++ evs |}))
        /\ failed evs = []
        \/ (forall a,
              probe_candidates h (p :: rest)
                {| arduino_ser := a; tick := t; trace := tr |}
              = probe_candidates h rest
                  {| arduino_ser := a; tick := t'; trace := tr ++ evs |})
           /\ failed evs = [p]).
Proof.
  rewrite probe_candidates_cons.
  unfold serial_Serial, serial_write, serial_read, serial_close, device_call,
    sleep, print, emit, try_except, bind, ret.
  cbn [arduino_ser tick trace port].
  destruct (io_error h t) eqn:E0; cbn.
  { eexists _, _. split; [|right; split; [intros a; trace_norm; reflexivity|]];
      reflexivity. }
  destruct (io_error h (S t)) eqn:E1; cbn.
  { eexists _, _. split; [|right; split; [intros a; trace_norm; reflexivity|]];
      reflexivity. }
  destruct (io_error h (S (S t))) eqn:E2; cbn.
  { eexists _, _. split; [|right; split; [intros a; trace_norm; reflexivity|]];
      reflexivity. }
  destruct (io_error h (S (S (S t)))) eqn:E3; cbn.
  { eexists _, _. split; [|right; split; [intros a; trace_norm; reflexivity|]];
      reflexivity. }
  eexists _, _. split; [|left; split; [intros a; trace_norm; reflexivity|]];
    reflexivity.
Qed.

Lemma probe_all (cs : list string) (t : nat) (tr : list event) :
  exists r evs t',
    (forall a,
       probe_candidates h cs {| arduino_ser := a; tick := t; trace := tr |}
       = (Ret r, {| arduino_ser := a; tick := t'; trace := tr ++ evs |}))
    /\ match r with
       | Some p =>
           exists bad rest,
             cs = bad ++ p :: rest
             /\ probed evs = bad ++ [p] /\ failed evs = bad
       | None => probed evs = cs /\ failed evs = cs
       end.
Proof.
  revert t tr. induction cs as [|p cs IH]; intros t tr.
  - exists None, [], t. split; [|split; reflexivity].
    intros a. cbn. rewrite app_nil_r. reflexivity.
  - destruct (probe_step p cs t tr) as (evs & t' & Hp & [[Hr Hf]|[Hr Hf]]).
    + exists (Some p), evs, t'. split; [exact Hr|].
      exists [], cs. rewrite Hp, Hf. repeat split.
    + destruct (IH t' (tr ++ evs)) as (r & evs' & t'' & Hr' & Hm).
      exists r, (evs ++ evs'), t''. split.
      { intros a. rewrite Hr, Hr', app_assoc. reflexivity. }
      rewrite probed_app, failed_app, Hp, Hf.
      destruct r as [q|].
      * destruct Hm as (bad & rest & -> & Hb & Hfb).
        exists (p :: bad), rest. rewrite Hb, Hfb. repeat split.
      * destruct Hm as [-> ->]. repeat split.
Qed.

(** A discovery, whatever the global holds. *)
Lemma find_run (t : nat) (tr : list event) :
  exists r evs t',
    (forall a,
       find_arduino_port h {| arduino_ser := a; tick := t; trace := tr |}
       = (Ret r, {| arduino_ser := a; tick := t'; trace := tr ++ evs |}))
    /\ match r with
       | Some p =>
           exists bad rest,
             glob h t "/dev/ttyUSB*" ++ glob h (S t) "/dev/ttyACM*"
             = bad ++ p :: rest
             /\ probed evs = bad ++ [p] /\ failed evs = bad
       | None =>
           probed evs = glob h t "/dev/ttyUSB*" ++ glob h (S t) "/dev/ttyACM*"
           /\ failed evs
              = glob h t "/dev/ttyUSB*" ++ glob h (S t) "/dev/ttyACM*"
       end.
Proof.
  set (cands := glob h t "/dev/ttyUSB*" ++ glob h (S t) "/dev/ttyACM*").
  destruct (probe_all cands (S (S t))
              (((tr ++ [EvGlob "/dev/ttyUSB*" (glob h t "/dev/ttyUSB*")])
                ++ [EvGlob "/dev/ttyACM*" (glob h (S t) "/dev/ttyACM*")])
               ++ [EvPrint (LogScanning cands)]))
    as (r & evs & t' & Hr & Hm).
  exists r,
    ([EvGlob "/dev/ttyUSB*" (glob h t "/dev/ttyUSB*");
      EvGlob "/dev/ttyACM*" (glob h (S t) "/dev/ttyACM*");
      EvPrint (LogScanning cands)]
     ++ evs
     ++ match r with
        | Some _ => []
        | None => [EvPrint LogNoValidPort]
        end), t'.
  split.
  { intros a. unfold find_arduino_port, glob_glob, print, emit, bind, ret.
    cbn [arduino_ser tick trace]. fold cands. rewrite Hr.
    destruct r; cbn [arduino_ser tick trace]; trace_norm;
      rewrite ?app_nil_r; reflexivity. }
  cbn [app probed failed]. rewrite probed_app, failed_app.
  destruct r as [p|].
  - destruct Hm as (bad & rest & Hc & Hp & Hf). exists bad, rest.
    rewrite Hp, Hf. cbn. rewrite !app_nil_r. repeat split. exact Hc.
  - destruct Hm as [Hp Hf]. rewrite Hp, Hf. cbn. rewrite !app_nil_r.
    split; reflexivity.
Qed.

(** A connection attempt, whatever the global holds: what it leaves in
    the global does not depend on what was there. *)
Lemma init_run (t : nat) (tr : list event) :
  exists v evs t',
    (forall a,
       init_arduino h {| arduino_ser := a; tick := t; trace := tr |}
       = (Ret tt, {| arduino_ser := v; tick := t'; trace := tr ++ evs |}))
    /\ match v with
       | Some ser =>
           In (port ser)
             (glob h t "/dev/ttyUSB*" ++ glob h (S t) "/dev/ttyACM*")
           /\ baudrate ser = 115200%Z
           /\ In (EvPrint LogConnected) evs
       | None =>
           In (EvPrint LogCouldNotFind) evs
           \/ exists p, In (EvPrint (LogConnectFailed p SerialException)) evs
       end.
Proof.
  destruct (find_run t tr) as (r & evs & t' & Hr & Hm).
  destruct r as [p|].
  - destruct Hm as (bad & rest & Hc & _).
    destruct (io_error h t') eqn:E.
    + exists None. eexists. exists (S t'). split.
      { intros a. unfold init_arduino, bind at 1. rewrite Hr.
        unfold serial_Serial, device_call, set_arduino_ser, sleep, print,
          emit, try_except, bind, ret.
        cbn [arduino_ser tick trace]. rewrite E. cbn [arduino_ser tick trace].
        trace_norm. reflexivity. }
      right. exists p. rewrite !in_app_iff. right. cbn. tauto.
    + exists (Some {| port := p; baudrate := 115200 |}). eexists.
      exists (S t'). split.
      { intros a. unfold init_arduino, bind at 1. rewrite Hr.
        unfold serial_Serial, device_call, set_arduino_ser, sleep, print,
          emit, try_except, bind, ret.
        cbn [arduino_ser tick trace]. rewrite E. cbn [arduino_ser tick trace].
        trace_norm. reflexivity. }
      cbn [port baudrate]. split; [rewrite Hc; apply in_elt|].
      split; [reflexivity|]. rewrite !in_app_iff. right. cbn. tauto.
  - exists None. eexists. exists t'. split.
    { intros a. unfold init_arduino, bind at 1. rewrite Hr.
      unfold set_arduino_ser, print, emit, bind, ret.
      cbn [arduino_ser tick trace]. trace_norm. reflexivity. }
    left. rewrite in_app_iff. right. left. reflexivity.
Qed.

(** X1: discovery never raises and leaves the global alone.  It probes
    the USB nodes and then the ACM nodes in the order the host lists them,
    gives up every port before the one it returns, and stops there; it
    returns nothing only after it has probed and given up them all. *)
Theorem discovery_probes_in_order (s : state) :
  exists r,
    result (find_arduino_port h) s = Ret r
    /\ arduino_ser (final (find_arduino_port h) s) = arduino_ser s
    /\ match r with
       | Some p =>
           exists bad rest,
             glob h (tick s) "/dev/ttyUSB*"
             ++ glob h (S (tick s)) "/dev/ttyACM*" = bad ++ p :: rest
             /\ probed (emitted (find_arduino_port h) s) = bad ++ [p]
             /\ failed (emitted (find_arduino_port h) s) = bad
       | None =>
           probed (emitted (find_arduino_port h) s)
           = glob h (tick s) "/dev/ttyUSB*"
             ++ glob h (S (tick s)) "/dev/ttyACM*"
           /\ failed (emitted (find_arduino_port h) s)
              = glob h (tick s) "/dev/ttyUSB*"
                ++ glob h (S (tick s)) "/dev/ttyACM*"
       end.
Proof.
  destruct s as [a t tr]. cbn [tick].
  destruct (find_run t tr) as (r & evs & t' & Hr & Hm).
  exists r. unfold emitted, result, final. rewrite Hr.
  cbn [fst snd arduino_ser trace]. rewrite drop_app_length.
  split; [reflexivity|]. split; [reflexivity|]. exact Hm.
Qed.

(** X2: a probe that fails after the port was opened moves on to the
    next candidate without closing the port: when the write of the ping
    raises, and when the read after it raises, the turn of the loop ends
    with the failure line and no call of [close]. *)
Theorem failed_probe_leaves_port_open (p : string) (rest : list string)
    (s : state) :
  io_error h (tick s) = false ->
  (io_error h (S (tick s)) = true ->
   probe_candidates h (p :: rest) s
   = probe_candidates h rest
       {| arduino_ser := arduino_ser s; tick := S (S (tick s));
          trace := trace s ++
            [EvPrint (LogProbing p); EvOpen p 115200 true; EvSleep 2000;
             EvWrite p ("ping" ++ newline) false;
             EvPrint (LogProbeFailed p SerialException)] |})
  /\ (io_error h (S (tick s)) = false ->
      io_error h (S (S (tick s))) = true ->
      probe_candidates h (p :: rest) s
      = probe_candidates h rest
          {| arduino_ser := arduino_ser s; tick := S (S (S (tick s)));
             trace := trace s ++
               [EvPrint (LogProbing p); EvOpen p 115200 true; EvSleep 2000;
                EvWrite p ("ping" ++ newline) true; EvSleep 100;
                EvRead p 10 false;
                EvPrint (LogProbeFailed p SerialException)] |}).
Proof.
  destruct s as [a t tr]. cbn [arduino_ser tick trace]. intros E0.
  rewrite probe_candidates_cons.
  unfold serial_Serial, serial_write, serial_read, serial_close, device_call,
    sleep, print, emit, try_except, bind, ret.
  cbn [arduino_ser tick trace port]. rewrite E0. cbn. split.
  - intros E1. rewrite E1. cbn. trace_norm. reflexivity.
  - intros E1 E2. rewrite E1. cbn. rewrite E2. cbn. trace_norm. reflexivity.
Qed.

(** X3: a connection attempt never raises.  It leaves in [arduino_ser]
    either a handle at 115200 baud on one of the device nodes the host
    listed, after logging the connection, or nothing, after logging that
    no port was found or that the open failed. *)
Theorem connect_outcome (s : state) :
  result (init_arduino h) s = Ret tt
  /\ match arduino_ser (final (init_arduino h) s) with
     | Some ser =>
         In (port ser)
           (glob h (tick s) "/dev/ttyUSB*"
            ++ glob h (S (tick s)) "/dev/ttyACM*")
         /\ baudrate ser = 115200%Z
         /\ In (EvPrint LogConnected) (emitted (init_arduino h) s)
     | None =>
         In (EvPrint LogCouldNotFind) (emitted (init_arduino h) s)
         \/ exists p,
              In (EvPrint (LogConnectFailed p SerialException))
                (emitted (init_arduino h) s)
     end.
Proof.
  destruct s as [a t tr]. cbn [tick].
  destruct (init_run t tr) as (v & evs & t' & Hr & Hm).
  unfold emitted, result, final. rewrite Hr.
  cbn [fst snd arduino_ser trace]. rewrite drop_app_length.
  split; [reflexivity|exact Hm].
Qed.

(** X4: a connection attempt does not look at the session it replaces:
    run from two states that differ only in [arduino_ser], it makes the
    same calls, logs the same lines and leaves the same handle. *)
Theorem connect_forgets_old_session (v : option Serial) (s : state) :
  init_arduino h (with_ser v s) = init_arduino h s.
Proof.
  destruct s as [a t tr]. unfold with_ser. cbn [tick trace].
  destruct (init_run t tr) as (w & evs & t' & Hr & _).
  rewrite (Hr v), (Hr a). reflexivity.
Qed.

(** X5: a port that passes the probe and then fails to open is not
    kept: the failure is logged and [arduino_ser] is [None]. *)
Theorem probe_passes_open_fails (s : state) (p : string)
    (rest : list string) :
  glob h (tick s) "/dev/ttyUSB*" ++ glob h (S (tick s)) "/dev/ttyACM*"
  = p :: rest ->
  (forall k, k < 4 -> io_error h (2 + tick s + k) = false) ->
  io_error h (6 + tick s) = true ->
  result (init_arduino h) s = Ret tt
  /\ arduino_ser (final (init_arduino h) s) = None
  /\ emitted (init_arduino h) s
     = [EvGlob "/dev/ttyUSB*" (glob h (tick s) "/dev/ttyUSB*");
        EvGlob "/dev/ttyACM*" (glob h (S (tick s)) "/dev/ttyACM*");
        EvPrint (LogScanning (p :: rest));
        EvPrint (LogProbing p);
        EvOpen p 115200 true; EvSleep 2000;
        EvWrite p ("ping" ++ newline) true; EvSleep 100;
        EvRead p 10 true; EvClose p true;
        EvPrint (LogLooksValid p);
        EvPrint (LogConnecting p 115200);
        EvOpen p 115200 false;
        EvPrint (LogConnectFailed p SerialException)].
Proof.
  destruct s as [a t tr]. cbn [tick]. intros Hg Hio H6.
  pose proof (Hio 0 ltac:(lia)) as H0. pose proof (Hio 1 ltac:(lia)) as H1.
  pose proof (Hio 2 ltac:(lia)) as H2. pose proof (Hio 3 ltac:(lia)) as H3.
  replace (2 + t + 0) with (S (S t)) in H0 by lia.
  replace (2 + t + 1) with (S (S (S t))) in H1 by lia.
  replace (2 + t + 2) with (S (S (S (S t)))) in H2 by lia.
  replace (2 + t + 3) with (S (S (S (S (S t))))) in H3 by lia.
  change (6 + t) with (S (S (S (S (S (S t)))))) in H6.
  assert (Hrun : init_arduino h {| arduino_ser := a; tick := t; trace := tr |}
    = (Ret tt,
       {| arduino_ser := None; tick := 7 + t;
          trace := tr ++
            [EvGlob "/dev/ttyUSB*" (glob h t "/dev/ttyUSB*");
             EvGlob "/dev/ttyACM*" (glob h (S t) "/dev/ttyACM*");
             EvPrint (LogScanning (p :: rest));
             EvPrint (LogProbing p);
             EvOpen p 115200 true; EvSleep 2000;
             EvWrite p ("ping" ++ newline) true; EvSleep 100;
             EvRead p 10 true; EvClose p true;
             EvPrint (LogLooksValid p);
             EvPrint (LogConnecting p 115200);
             EvOpen p 115200 false;
             EvPrint (LogConnectFailed p SerialException)] |})).
  { unfold init_arduino, find_arduino_port, glob_glob, print, emit, bind at 1 2 3 4, ret.
    cbn [arduino_ser tick trace]. rewrite Hg, probe_candidates_cons.
    unfold serial_Serial, serial_write, serial_read, serial_close,
      device_call, set_arduino_ser, sleep, print, emit, try_except, bind, ret.
    cbn [arduino_ser tick trace port].
    rewrite H0. cbn. rewrite H1. cbn. rewrite H2. cbn. rewrite H3. cbn.
    rewrite H6. cbn. trace_norm. reflexivity. }
  unfold emitted, result, final. rewrite Hrun.
  cbn [fst snd arduino_ser trace]. rewrite drop_app_length.
  repeat split.
Qed.

End BakDiscovery.

(** ** Sends on the serial bridge *)

Section BakSend.
Import Bak BakObs BakMore.

Variable h : host.


Lemma send_events_prints (ls : list log_line) :
  forallb send_event (map EvPrint ls) = true.
Proof. induction ls; [reflexivity|]. cbn. assumption. Qed.

(** A send on an open link, call by call. *)
Lemma send_run (cmd : string) (ser : Serial) (t : nat) (tr : list event) :
  exists evs t',
    send_cmd_to_arduino h cmd
      {| arduino_ser := Some ser; tick := t; trace := tr |}
    = (Ret tt, {| arduino_ser := Some ser; tick := t'; trace := tr ++ evs |})
    /\ writes evs = [(port ser, (cmd ++ newline)%string)]
    /\ forallb send_event evs = true
    /\ t <= t' <= t + 3
    /\ forall r,
         In (EvPrint (LogReply r)) evs
         <-> io_error h t = false
             /\ io_error h (S t) = false
             /\ in_waiting h (S t) <> 0%Z
             /\ io_error h (S (S t)) = false
             /\ r = strip (readline h (S (S t)))
             /\ r <> EmptyString.
Proof.
  unfold send_cmd_to_arduino, serial_write, serial_in_waiting,
    serial_readline, device_read, device_call, get_arduino_ser, print, emit,
    try_except, bind, ret.
  cbn [arduino_ser tick trace].
  assert (Hno : forall (evs : list event) (r : string),
             forallb (fun e => match e with
                               | EvPrint (LogReply _) => false
                               | _ => true
                               end) evs = true ->
             ~ In (EvPrint (LogReply r)) evs).
  { intros evs r Hall Hin. rewrite forallb_forall in Hall.
    specialize (Hall _ Hin). discriminate Hall. }
  destruct (io_error h t) eqn:E0; cbn.
  { eexists _, _. split; [trace_norm; reflexivity|].
    split; [reflexivity|]. split; [reflexivity|]. split; [lia|].
    intros r. split.
    - intros H. apply Hno in H; [contradiction|reflexivity].
    - intros (H & _). discriminate H. }
  destruct (io_error h (S t)) eqn:E1; cbn.
  { eexists _, _. split; [trace_norm; reflexivity|].
    split; [reflexivity|]. split; [reflexivity|]. split; [lia|].
    intros r. split.
    - intros H. apply Hno in H; [contradiction|reflexivity].
    - intros (_ & H & _). discriminate H. }
  destruct (in_waiting h (S t) =? 0)%Z eqn:Ew; cbn.
  { eexists _, _. split; [trace_norm; reflexivity|].
    split; [reflexivity|]. split; [reflexivity|]. split; [lia|].
    intros r. split.
    - intros H. apply Hno in H; [contradiction|reflexivity].
    - apply Z.eqb_eq in Ew. intros (_ & _ & H & _). contradiction. }
  apply Z.eqb_neq in Ew.
  destruct (io_error h (S (S t))) eqn:E2; cbn.
  { eexists _, _. split; [trace_norm; reflexivity|].
    split; [reflexivity|]. split; [reflexivity|]. split; [lia|].
    intros r. split.
    - intros H. apply Hno in H; [contradiction|reflexivity].
    - intros (_ & _ & _ & H & _). discriminate H. }
  destruct (String.eqb (strip (readline h (S (S t)))) EmptyString) eqn:Es; cbn.
  { eexists _, _. split; [trace_norm; reflexivity|].
    split; [reflexivity|]. split; [reflexivity|]. split; [lia|].
    intros r. split.
    - intros H. apply Hno in H; [contradiction|reflexivity].
    - apply String.eqb_eq in Es. intros (_ & _ & _ & _ & -> & H).
      contradiction. }
  apply String.eqb_neq in Es.
  eexists _, _. split; [trace_norm; reflexivity|].
  split; [reflexivity|]. split; [reflexivity|]. split; [lia|].
  intros r. split.
  - cbn. intros [H|[H|[H|[H|[H|[]]]]]]; try discriminate H.
    injection H as <-. repeat split; assumption.
  - intros (_ & _ & _ & _ & -> & _). cbn. tauto.
Qed.



End BakSend.

(** ** Streams of messages on the serial bridge *)

Section BakStream.
Import Bak BakObs BakMore.

Variable h : host.
Variable json_loads : string -> option value.

(** The handler, whatever the message. *)
Lemma handler_run (m : pubsub_message) (s : state) :
  exists evs t',
    handle_teleop_message h json_loads m s
    = (Ret tt, {| arduino_ser := arduino_ser s; tick := t';
                  trace := trace s ++ evs |})
    /\ writes evs
       = match arduino_ser s with
         | Some ser => line_of json_loads ser m
         | None => []
         end
    /\ forallb send_event evs = true
    /\ tick s <= t' <= tick s + 3.
Proof.
  unfold line_of.
  destruct (in_strs (cmd_field json_loads m) TELEOP_COMMANDS) eqn:E.
  - apply in_strs_true in E. destruct E as (c & Hc & Hin).
    destruct (handle_listed h json_loads m s c Hc Hin) as (ts & H).
    rewrite H, Hc. cbn [word]. unfold logged. cbn [map].
    destruct s as [[ser|] t tr]; cbn [arduino_ser tick trace].
    + destruct (send_run h c ser t
                  (tr ++ [EvPrint (LogReceived (VStr c) ts
                                     (field m "senderId"))]))
        as (evs & t' & Hr & Hw & Hs & Ht & _).
      rewrite Hr. eexists _, t'. rewrite <- app_assoc.
      split; [reflexivity|]. cbn [app writes forallb send_event].
      repeat split; try assumption; lia.
    + rewrite send_not_connected by reflexivity.
      cbn [arduino_ser tick trace]. eexists _, t. rewrite <- app_assoc.
      split; [reflexivity|]. repeat split; lia.
  - destruct (handle_unlisted h json_loads m s E) as (ls & H).
    rewrite H. unfold logged. exists (map EvPrint ls), (tick s).
    split; [reflexivity|]. rewrite writes_prints, send_events_prints.
    destruct (arduino_ser s); repeat split; lia.
Qed.

(** X7: whatever the message, the handler starts no discovery, opens and
    closes no port and leaves [arduino_ser] as it is; all it does is at
    most one write, at most two calls to read the reply, and log lines. *)
Theorem handler_never_reconnects (m : pubsub_message) (s : state) :
  forallb send_event (emitted (handle_teleop_message h json_loads m) s) = true
  /\ connects (emitted (handle_teleop_message h json_loads m) s) = 0
  /\ length (writes (emitted (handle_teleop_message h json_loads m) s)) <= 1
  /\ arduino_ser (final (handle_teleop_message h json_loads m) s)
     = arduino_ser s
  /\ tick s <= tick (final (handle_teleop_message h json_loads m) s)
     <= tick s + 3.
Proof.
  destruct (handler_run m s) as (evs & t' & Hr & Hw & Hs & Ht).
  unfold emitted, final. rewrite Hr. cbn [snd arduino_ser tick trace].
  rewrite drop_app_length. split; [exact Hs|]. split.
  { clear Hw Hr. induction evs as [|e evs IH]; [reflexivity|].
    cbn in Hs. apply andb_prop in Hs. destruct Hs as [He Hs].
    destruct e; try discriminate He; cbn; auto. }
  split; [|split; [reflexivity|exact Ht]].
  rewrite Hw. unfold line_of.
  destruct (arduino_ser s); [|cbn; lia].
  destruct (in_strs _ _); cbn; lia.
Qed.




End BakStream.

(** ** More on the joint jog node *)

Section GzbStream.
Import Gzb GzbObs GzbMore.

Variable h : host.
Variable json_loads : string -> option value.

Lemma keymap_get_in (table : list (string * (nat * Z))) (k : string)
    (e : nat * Z) :
  keymap_get table k = Some e -> In (k, e) table.
Proof.
  induction table as [|[k' e'] table IH]; cbn; [discriminate|].
  destruct (String.eqb k' k) eqn:E.
  - apply String.eqb_eq in E. intros [= ->]. left. subst. reflexivity.
  - intros H. right. exact (IH H).
Qed.

Lemma lstrip_blank (s : string) : blank s = true -> lstrip s = EmptyString.
Proof.
  induction s as [|c s IH]; cbn; [reflexivity|].
  intros H. apply andb_prop in H. destruct H as [Hc Hs].
  rewrite Hc. exact (IH Hs).
Qed.

(** The key handler on a node with seven joints, case by case. *)
Lemma handle_key_run (key : value) (node : JointJogNode) (t : nat)
    (tr : list event) :
  length (q node) = length JOINT_NAMES ->
  exists out node' evs t',
    handle_key h key {| ros_node := Some node; tick := t; trace := tr |}
    = (out, {| ros_node := Some node'; tick := t'; trace := tr ++ evs |})
    /\ length (q node') = length JOINT_NAMES
    /\ (jog_or_stop key = false /\ node' = node /\ evs = [] /\ t' = t
        \/ jog_or_stop key = true /\ t' = S t
           /\ exists l,
                evs = [EvPrint l;
                       EvPublish (target_msg (q node'))
                         (negb (publish_error h t))]
                /\ (node' = node
                    \/ exists k idx sgn old,
                         In (k, (idx, sgn)) KEYMAP
                         /\ q node !! idx = Some old
                         /\ q node'
                            = <[idx := (old + float_of_int sgn * STEP_RAD)%float]>
                                (q node))).
Proof.
  intros Hlen.
  destruct (jog_or_stop key) eqn:Hj.
  - destruct key as [| b | n | x | str | xs | items]; try discriminate.
    cbn [jog_or_stop] in Hj.
    destruct (truthy (VStr str)) eqn:Ht.
    2: { cbn in Ht. apply negb_false_iff, String.eqb_eq in Ht. subst str.
         discriminate Hj. }
    destruct (in_set (strip (lower str)) STOP_KEYS) eqn:Hs.
    + rewrite (handle_key_stop h str _ Ht Hs).
      erewrite publish_target_run by reflexivity.
      cbn [tick trace]. eexists _, node, _, _. rewrite <- app_assoc.
      split; [reflexivity|]. split; [exact Hlen|]. right.
      split; [reflexivity|]. split; [reflexivity|].
      eexists. split; [reflexivity|]. left. reflexivity.
    + cbn [orb] in Hj.
      destruct (keymap_get KEYMAP (strip (lower str))) as [[idx sgn]|] eqn:Hg;
        [|discriminate].
      pose proof (keymap_get_in _ _ _ Hg) as Hin.
      destruct (keymap_entry _ idx sgn Hin) as (_ & _ & _ & _ & Hidx & _).
      rewrite <- Hlen in Hidx.
      destruct (lookup_lt_is_Some_2 (q node) idx Hidx) as [old Hold].
      unfold handle_key. rewrite Ht. cbn [negb]. rewrite Hs, Hg.
      unfold bind at 1. unfold self_q. cbn [ros_node]. rewrite Hold.
      unfold bind, set_self_q, print, emit. cbn [ros_node tick trace].
      erewrite publish_target_run by reflexivity.
      cbn [tick trace q]. eexists _, _, _, _. rewrite <- app_assoc.
      split; [reflexivity|]. cbn [q].
      split; [rewrite length_insert; exact Hlen|]. right.
      split; [reflexivity|]. split; [reflexivity|].
      eexists. split; [reflexivity|]. right.
      exists (strip (lower str)), idx, sgn, old. repeat split; assumption.
  - destruct (handle_key_other h key
                {| ros_node := Some node; tick := t; trace := tr |} Hj)
      as [-> | ->]; eexists _, node, [], t; rewrite app_nil_r;
      (split; [reflexivity|]); (split; [exact Hlen|]); left; repeat split.
Qed.

(** X10: on a node with seven joints, a call of the key handler
    publishes exactly one trajectory when the key is a jog or stop key,
    carrying the joint vector as the call leaves it, and publishes nothing
    for any other key; the publisher is called whether or not it raises. *)
Theorem publishes_once_per_recognized_key (key : value) (s : state)
    (node : JointJogNode) :
  ros_node s = Some node ->
  length (q node) = length JOINT_NAMES ->
  exists node',
    ros_node (final (handle_key h key) s) = Some node'
    /\ published (emitted (handle_key h key) s)
       = (if jog_or_stop key then [q node'] else [])
    /\ tick (final (handle_key h key) s)
       = (if jog_or_stop key then S (tick s) else tick s).
Proof.
  destruct s as [a t tr]. cbn [ros_node tick]. intros -> Hlen.
  destruct (handle_key_run key node t tr Hlen)
    as (out & node' & evs & t' & Hr & _ & Hc).
  exists node'. unfold emitted, final. rewrite Hr.
  cbn [snd ros_node tick trace]. rewrite drop_app_length.
  split; [reflexivity|].
  destruct Hc as [(-> & _ & -> & ->) | (-> & -> & l & -> & _)];
    split; reflexivity.
Qed.

(** X11: jogs of two different joints commute: pressed in either order
    they leave the same joint vector. *)
Theorem jogs_of_different_joints_commute (k1 k2 : string) (i1 i2 : nat)
    (g1 g2 : Z) (s : state) (node : JointJogNode) :
  In (k1, (i1, g1)) KEYMAP ->
  In (k2, (i2, g2)) KEYMAP ->
  i1 <> i2 ->
  ros_node s = Some node ->
  length (q node) = length JOINT_NAMES ->
  ros_node (press_all h [k1; k2] s) = ros_node (press_all h [k2; k1] s).
Proof.
  intros H1 H2 Hne Hn Hlen. destruct node as [qs]. cbn [q] in Hlen.
  destruct (keymap_entry k1 i1 g1 H1) as (_ & _ & _ & _ & Hi1 & _).
  destruct (keymap_entry k2 i2 g2 H2) as (_ & _ & _ & _ & Hi2 & _).
  rewrite <- Hlen in Hi1, Hi2.
  destruct (lookup_lt_is_Some_2 qs i1 Hi1) as [o1 Ho1].
  destruct (lookup_lt_is_Some_2 qs i2 Hi2) as [o2 Ho2].
  unfold press_all. cbn [fold_left].
  rewrite (jog_final h k1 i1 g1 s qs o1 H1 Hn Ho1).
  rewrite (jog_final h k2 i2 g2 s qs o2 H2 Hn Ho2).
  erewrite (jog_final h k2 i2 g2 _ _ o2 H2);
    [|reflexivity|rewrite list_lookup_insert_ne by congruence; exact Ho2].
  erewrite (jog_final h k1 i1 g1 _ _ o1 H1);
    [|reflexivity|rewrite list_lookup_insert_ne by congruence; exact Ho1].
  cbn [ros_node]. apply f_equal, f_equal, list_insert_insert_ne. congruence.
Qed.


(** X13: a key made of whitespace only, the empty key included, is
    ignored: the call returns with no event and no change. *)
Theorem blank_key_ignored (key : string) (s : state) :
  blank key = true ->
  handle_key h (VStr key) s = (Ret tt, s).
Proof.
  intros Hb. unfold handle_key.
  destruct (truthy (VStr key)); cbn [negb]; [|reflexivity].
  unfold strip. rewrite (lower_blank key Hb), (lstrip_blank key Hb).
  reflexivity.
Qed.

(** X14: the stop key x in upper case or with whitespace around it is
    handled exactly as x itself. *)
Theorem stop_variant_handled_as_stop (v : string) (s : state) :
  variant_of "x" v ->
  handle_key h (VStr v) s = handle_key h (VStr "x") s.
Proof.
  intros (pre & post & Hpre & Hpost & Hv).
  assert (Ht : truthy (VStr v) = true).
  { destruct Hv as [-> | ->]; destruct pre; reflexivity. }
  assert (Hn : strip (lower v) = "x").
  { destruct Hv as [-> | ->];
      rewrite !lower_app, (lower_blank _ Hpre), (lower_blank _ Hpost);
      apply (strip_padded "x"%char); (reflexivity || assumption). }
  unfold handle_key. rewrite Ht, Hn. reflexivity.
Qed.

Lemma handle_key_sound (key : value) (s : state) :
  sound s -> sound (final (handle_key h key) s).
Proof.
  destruct s as [a t tr]. intros [(node & Hn & Hlen) Hwf].
  cbn [ros_node trace] in *. subst a.
  destruct (handle_key_run key node t tr Hlen)
    as (out & node' & evs & t' & Hr & Hlen' & Hc).
  unfold final. rewrite Hr. cbn [snd]. split.
  - exists node'. split; [reflexivity|exact Hlen'].
  - cbn [trace]. apply Forall_app. split; [exact Hwf|].
    destruct Hc as [(_ & _ & -> & _) | (_ & _ & l & -> & _)].
    + constructor.
    + constructor; [exact I|]. constructor; [|constructor].
      exists (q node'). split; [reflexivity|exact Hlen'].
Qed.

Lemma logged_sound (s : state) (ls : list log_line) :
  sound s -> sound (logged s ls).
Proof.
  intros [Hn Hwf]. split; [exact Hn|].
  cbn [logged trace]. apply Forall_app. split; [exact Hwf|].
  induction ls; constructor; [exact I|assumption].
Qed.

Lemma handler_sound (m : pubsub_message) (s : state) :
  sound s -> sound (final (handle_teleop_message h json_loads m) s).
Proof.
  intros Hs. unfold final at 1.
  destruct (handler_cases h json_loads m s)
    as [(ls & [[-> _]|[-> _]]) | (ts & s1 & -> & _ & [-> | (e & ->)])];
    cbn [snd]; repeat apply logged_sound; try exact Hs;
    apply handle_key_sound, logged_sound, Hs.
Qed.

(** X15: from the started node, whatever messages arrive, every
    trajectory handed to the publisher names the seven joints and has one
    point with seven positions. *)
Theorem every_trajectory_well_formed (msgs : list pubsub_message) :
  Forall well_formed (trace (deliver h json_loads msgs started)).
Proof.
  assert (H : forall s, sound s -> sound (deliver h json_loads msgs s)).
  { induction msgs as [|m msgs IH]; intros s Hs; [exact Hs|].
    apply (IH (final (handle_teleop_message h json_loads m) s)).
    apply handler_sound, Hs. }
  apply (H started). split; [|constructor].
  exists JointJogNode_init. split; reflexivity.
Qed.

End GzbStream.

(** ** The camera track *)

Section TrackFacts.
Import Track TrackObs.

Variable h : host.

Lemma frame_step : int_of_float (true_div 1 TARGET_FPS
                                 * float_of_int VIDEO_CLOCK_RATE)%float
                   = Some 3000%Z.
Proof. vm_compute. reflexivity. Qed.

Lemma max_0_nonneg (x : float) : PrimFloat.leb 0 (max_0 x) = true.
Proof.
  unfold max_0. destruct (PrimFloat.ltb 0 x) eqn:E; [|reflexivity].
  rewrite ltb_spec in E. rewrite leb_spec.
  unfold SFltb in E. unfold SFleb.
  destruct (SFcompare (Prim2SF 0) (Prim2SF x)) as [[]|];
    (reflexivity || discriminate E).
Qed.

(** A call on a live track, written out. *)
Lemma next_timestamp_live (s : state) :
  readyState s = "live" ->
  next_timestamp h s
  = match _timestamp s with
    | Some ts =>
        (Ret ((ts + 3000)%Z, VIDEO_TIME_BASE),
         {| readyState := "live"; _start := _start s;
            _timestamp := Some (ts + 3000)%Z; tick := S (tick s);
            trace := trace s ++
              [EvTime (time_time h (tick s));
               EvSleep (max_0 (_start s
                               + true_div (ts + 3000) VIDEO_CLOCK_RATE
                               - time_time h (tick s))%float)] |})
    | None =>
        (Ret (0%Z, VIDEO_TIME_BASE),
         {| readyState := "live"; _start := time_time h (tick s);
            _timestamp := Some 0%Z; tick := S (tick s);
            trace := trace s ++ [EvTime (time_time h (tick s))] |})
    end.
Proof.
  intros Hl. unfold next_timestamp. rewrite Hl. cbn [String.eqb negb].
  change (String.eqb "live" "live") with true. cbn [negb].
  destruct (_timestamp s) as [ts|].
  - rewrite frame_step. unfold time_now.
    cbn [readyState _start _timestamp tick trace]. rewrite ?Hl.
    rewrite <- app_assoc. reflexivity.
  - unfold time_now. cbn [readyState _start _timestamp tick trace].
    rewrite ?Hl. reflexivity.
Qed.

Lemma next_timestamp_stays_live (s : state) :
  readyState s = "live" ->
  readyState (snd (next_timestamp h s)) = "live"
  /\ exists ts, _timestamp (snd (next_timestamp h s)) = Some ts
                /\ fst (next_timestamp h s) = Ret (ts, VIDEO_TIME_BASE)
                /\ (last_timestamp s < ts)%Z
                /\ (ts = 0 \/ ts = last_timestamp s + 3000)%Z.
Proof.
  intros Hl. rewrite (next_timestamp_live s Hl). unfold last_timestamp.
  destruct (_timestamp s) as [ts|]; cbn [fst snd readyState _timestamp];
    (split; [reflexivity|]); eexists; repeat split; lia.
Qed.

(** X16: on a live track the first time stamp is 0 and each further call
    adds 3000 ticks of the 90 kHz clock, whatever the wall clock says:
    call number [n], counted from 0, returns [3000 * n] with time base
    1/90000. *)
Theorem timestamps_step_by_3000 (n : nat) (s : state) :
  readyState s = "live" ->
  _timestamp s = None ->
  nth_timestamp h n s = Ret ((3000 * Z.of_nat n)%Z, (1%Z, 90000%Z)).
Proof.
  intros Hl Hn.
  assert (Hgen : forall k (s' : state) ts,
             readyState s' = "live" -> _timestamp s' = Some ts ->
             nth_timestamp h k s'
             = Ret ((ts + 3000 * (Z.of_nat k + 1))%Z, (1%Z, 90000%Z))).
  { induction k as [|k IH]; intros s' ts Hl' Ht'.
    - cbn [nth_timestamp]. rewrite (next_timestamp_live s' Hl'), Ht'.
      cbn [fst]. unfold VIDEO_TIME_BASE, VIDEO_CLOCK_RATE.
      repeat f_equal; lia.
    - cbn [nth_timestamp]. rewrite (next_timestamp_live s' Hl'), Ht'.
      cbn [snd]. rewrite (IH _ (ts + 3000)%Z) by reflexivity.
      do 2 f_equal. lia. }
  destruct n as [|n].
  - cbn [nth_timestamp]. rewrite (next_timestamp_live s Hl), Hn. reflexivity.
  - cbn [nth_timestamp]. rewrite (next_timestamp_live s Hl), Hn.
    cbn [snd]. rewrite (Hgen n _ 0%Z) by reflexivity.
    replace (0 + 3000 * (Z.of_nat n + 1))%Z
      with (3000 * Z.of_nat (S n))%Z by lia.
    reflexivity.
Qed.

(** X17: the pacing sleep is never negative: whatever the state and the
    wall clock, a call sleeps at most once, and for zero seconds or
    more. *)
Theorem pacing_sleep_never_negative (s : state) :
  exists evs,
    trace (snd (next_timestamp h s)) = trace s ++ evs
    /\ length (sleeps evs) <= 1
    /\ Forall (fun x => PrimFloat.leb 0 x = true) (sleeps evs).
Proof.
  unfold next_timestamp.
  destruct (negb (String.eqb (readyState s) "live")).
  { exists []. rewrite app_nil_r. repeat split; [cbn; lia|constructor]. }
  destruct (_timestamp s) as [ts|].
  - destruct (int_of_float _) as [step|].
    + unfold time_now. cbn [snd readyState _start _timestamp tick trace].
      eexists. rewrite <- app_assoc. split; [reflexivity|].
      cbn [app sleeps length]. split; [lia|].
      constructor; [apply max_0_nonneg|constructor].
    + exists []. rewrite app_nil_r. repeat split; [cbn; lia|constructor].
  - unfold time_now. cbn [snd trace]. eexists. split; [reflexivity|].
    cbn. split; [lia|constructor].
Qed.

(** X18: a frame the camera fails to give still uses up its time stamp:
    the call raises after the time stamp has advanced, so the next frame
    delivered is stamped two steps after the last one. *)
Theorem lost_frame_uses_its_timestamp (s : state) (ts : Z) :
  readyState s = "live" ->
  _timestamp s = Some ts ->
  cap_read h (S (tick s)) = None ->
  fst (recv h s) = Raise MediaStreamError
  /\ _timestamp (snd (recv h s)) = Some (ts + 3000)%Z
  /\ forall frame,
       cap_read h (S (S (S (tick s)))) = Some frame ->
       fst (recv h (snd (recv h s)))
       = Ret {| image := Resized frame 1280 720; format := "bgr24";
                pts := (ts + 6000)%Z; time_base := (1%Z, 90000%Z) |}.
Proof.
  intros Hl Ht Hc.
  assert (H1 : recv h s
               = (Raise MediaStreamError,
                  {| readyState := "live"; _start := _start s;
                     _timestamp := Some (ts + 3000)%Z;
                     tick := S (S (tick s));
                     trace := (trace s ++
                       [EvTime (time_time h (tick s));
                        EvSleep (max_0 (_start s
                                        + true_div (ts + 3000) VIDEO_CLOCK_RATE
                                        - time_time h (tick s))%float)])
                       ++ [EvCapRead false] |})).
  { unfold recv. rewrite (next_timestamp_live s Hl), Ht.
    cbn [readyState _start _timestamp tick trace]. rewrite Hc. reflexivity. }
  rewrite H1. cbn [fst snd _timestamp].
  split; [reflexivity|]. split; [reflexivity|].
  intros frame Hf. unfold recv.
  rewrite next_timestamp_live by reflexivity.
  cbn [readyState _start _timestamp tick trace]. rewrite Hf. cbn [fst].
  unfold process_frame, TARGET_WIDTH, TARGET_HEIGHT, VIDEO_TIME_BASE,
    VIDEO_CLOCK_RATE.
  replace (ts + 3000 + 3000)%Z with (ts + 6000)%Z by lia. reflexivity.
Qed.

Lemma recv_stays_live (s : state) :
  readyState s = "live" ->
  readyState (snd (recv h s)) = "live"
  /\ (last_timestamp s < last_timestamp (snd (recv h s)))%Z
  /\ forall vf, fst (recv h s) = Ret vf ->
                pts vf = last_timestamp (snd (recv h s)).
Proof.
  intros Hl.
  destruct (next_timestamp_stays_live s Hl) as (Hl' & ts & Ht & Hr & Hlt & _).
  unfold recv.
  destruct (next_timestamp h s) as [[[p tb]|e] s1]; cbn [fst snd] in *;
    [|discriminate Hr].
  injection Hr as -> ->.
  destruct (cap_read h (tick s1)); cbn [fst snd readyState];
    unfold last_timestamp at 2 3; cbn [_timestamp]; rewrite Ht;
    (split; [exact Hl'|]); (split; [exact Hlt|]); intros vf [= <-];
    reflexivity.
Qed.

(** X19: on a live track the frames delivered carry strictly increasing
    time stamps, all above the last one handed out before, whichever
    reads of the camera fail in between. *)
Theorem frame_timestamps_increase (n : nat) (s : state) :
  readyState s = "live" ->
  StronglySorted Z.lt (recv_pts h n s)
  /\ Forall (fun p => (last_timestamp s < p)%Z) (recv_pts h n s).
Proof.
  revert s. induction n as [|n IH]; intros s Hl.
  - split; constructor.
  - destruct (recv_stays_live s Hl) as (Hl' & Hlt & Hp).
    destruct (IH _ Hl') as [Hs Hf].
    cbn [recv_pts]. destruct (recv h s) as [[vf|e] s1]; cbn [fst snd] in *.
    + rewrite (Hp vf eq_refl). split.
      * constructor; assumption.
      * constructor; [exact Hlt|].
        eapply Forall_impl; [exact Hf|]. cbn. intros p Hq. lia.
    + split; [exact Hs|].
      eapply Forall_impl; [exact Hf|]. cbn. intros p Hq. lia.
Qed.

End TrackFacts.

(** ** The further properties on sample runs *)

Section MoreWitnesses.

Lemma failed_probe_leaves_port_open_witness :
  Bak.probe_candidates BakMore.host_dies ["/dev/ttyUSB0"] BakMore.scanned
  = (Ret None,
     {| Bak.arduino_ser := None; Bak.tick := 4;
        Bak.trace :=
          [Bak.EvPrint (Bak.LogProbing "/dev/ttyUSB0");
           Bak.EvOpen "/dev/ttyUSB0" 115200 true; Bak.EvSleep 2000;
           Bak.EvWrite "/dev/ttyUSB0" ("ping" ++ Bak.newline) false;
           Bak.EvPrint (Bak.LogProbeFailed "/dev/ttyUSB0" SerialException)] |}).
Proof.
  destruct (failed_probe_leaves_port_open BakMore.host_dies "/dev/ttyUSB0" []
              BakMore.scanned eq_refl) as [H _].
  rewrite (H eq_refl). reflexivity.
Defined.

Lemma probe_passes_open_fails_witness :
  Bak.arduino_ser (final (Bak.init_arduino BakMore.host_closes) Bak.initial)
  = None.
Proof.
  destruct (probe_passes_open_fails BakMore.host_closes Bak.initial
              "/dev/ttyUSB0" [] eq_refl) as (_ & H & _).
  - intros k Hk. destruct k as [|[|[|[|k]]]]; (reflexivity || lia).
  - reflexivity.
  - exact H.
Defined.



Lemma publishes_once_per_recognized_key_witness :
  exists node',
    Gzb.ros_node (final (Gzb.handle_key GzbObs.host_down (VStr "w"))
                    Gzb.started) = Some node'
    /\ GzbObs.published
         (GzbObs.emitted (Gzb.handle_key GzbObs.host_down (VStr "w"))
            Gzb.started)
       = (if GzbObs.jog_or_stop (VStr "w") then [Gzb.q node'] else [])
    /\ Gzb.tick (final (Gzb.handle_key GzbObs.host_down (VStr "w"))
                   Gzb.started)
       = (if GzbObs.jog_or_stop (VStr "w") then 1 else 0).
Proof.
  exact (publishes_once_per_recognized_key GzbObs.host_down (VStr "w")
           Gzb.started Gzb.JointJogNode_init eq_refl eq_refl).
Defined.

Lemma jogs_of_different_joints_commute_witness :
  Gzb.ros_node (GzbObs.press_all GzbObs.host_ok ["q"; "s"] Gzb.started)
  = Gzb.ros_node (GzbObs.press_all GzbObs.host_ok ["s"; "q"] Gzb.started).
Proof.
  apply (jogs_of_different_joints_commute GzbObs.host_ok "q" "s" 0 1 1 (-1)
           Gzb.started Gzb.JointJogNode_init).
  - left. reflexivity.
  - right. right. right. left. reflexivity.
  - discriminate.
  - reflexivity.
  - reflexivity.
Defined.


Lemma blank_key_ignored_witness :
  Gzb.handle_key GzbObs.host_ok (VStr "   ") Gzb.started
  = (Ret tt, Gzb.started).
Proof.
  exact (blank_key_ignored GzbObs.host_ok "   " Gzb.started eq_refl).
Defined.

Lemma stop_variant_handled_as_stop_witness :
  Gzb.handle_key GzbObs.host_ok (VStr " X") Gzb.started
  = Gzb.handle_key GzbObs.host_ok (VStr "x") Gzb.started.
Proof.
  apply (stop_variant_handled_as_stop GzbObs.host_ok " X" Gzb.started).
  exists " ", EmptyString. split; [reflexivity|]. split; [reflexivity|].
  right. reflexivity.
Defined.

Lemma timestamps_step_by_3000_witness :
  TrackObs.nth_timestamp TrackObs.host_ok 3 TrackObs.fresh
  = Track.Ret (9000%Z, (1%Z, 90000%Z)).
Proof.
  exact (timestamps_step_by_3000 TrackObs.host_ok 3 TrackObs.fresh
           eq_refl eq_refl).
Defined.

Lemma lost_frame_uses_its_timestamp_witness :
  fst (Track.recv TrackObs.host_blink TrackObs.rolling)
  = Track.Raise Track.MediaStreamError
  /\ fst (Track.recv TrackObs.host_blink
            (snd (Track.recv TrackObs.host_blink TrackObs.rolling)))
     = Track.Ret {| Track.image := Track.Resized (Track.Captured 4) 1280 720;
                    Track.format := "bgr24";
                    Track.pts := 6000%Z;
                    Track.time_base := (1%Z, 90000%Z) |}.
Proof.
  destruct (lost_frame_uses_its_timestamp TrackObs.host_blink TrackObs.rolling
              0%Z eq_refl eq_refl eq_refl) as (H1 & _ & H2).
  split; [exact H1|]. exact (H2 (Track.Captured 4) eq_refl).
Defined.

Lemma frame_timestamps_increase_witness :
  TrackObs.recv_pts TrackObs.host_blink 3 TrackObs.fresh = [0; 6000]%Z
  /\ StronglySorted Z.lt (TrackObs.recv_pts TrackObs.host_blink 3 TrackObs.fresh).
Proof.
  split; [reflexivity|].
  exact (proj1 (frame_timestamps_increase TrackObs.host_blink 3 TrackObs.fresh
                  eq_refl)).
Defined.

End MoreWitnesses.

(** ** The handlers and a standard output that refuses lines *)

Section BakOutFacts.
Import Bak BakObs.

Variable h : host.
Variable print_error : log_line -> option exn.
Variable json_loads : string -> option value.

(** With a standard output that takes every line the handler is the one
    of [Bak]. *)
Lemma bak_out_accepting (m : pubsub_message) (s : state) :
  (forall l, print_error l = None) ->
  BakOut.handle_teleop_message h print_error json_loads m s
  = handle_teleop_message h json_loads m s.
Proof.
  intros Hacc.
  assert (E : print_error = Stdout.bak_accepts).
  { apply functional_extensionality. exact Hacc. }
  rewrite E. reflexivity.
Qed.











End BakOutFacts.

Section GzbOutFacts.
Import Gzb GzbObs.

Variable h : host.
Variable print_error : log_line -> option exn.
Variable json_loads : string -> option value.

Lemma gzb_out_accepting (m : pubsub_message) (s : state) :
  (forall l, print_error l = None) ->
  GzbOut.handle_teleop_message h print_error json_loads m s
  = handle_teleop_message h json_loads m s.
Proof.
  intros Hacc.
  assert (E : print_error = Stdout.gzb_accepts).
  { apply functional_extensionality. exact Hacc. }
  rewrite E. reflexivity.
Qed.







End GzbOutFacts.

(** ** Both handlers and the standard output *)

Section OutHandlers.

Variable hb : Bak.host.
Variable hg : Gzb.host.
Variable eb : Bak.log_line -> option exn.
Variable eg : Gzb.log_line -> option exn.
Variable json_loads : string -> option value.



End OutHandlers.




